(** * RPLIDAR A1 protocol driver: a shallow embedding of the [RPLidarA1]
      class of [2dplot.py] and [3dplot.py], and the properties of its
      command framing, descriptor check, reply parsing and scan-frame
      decoding. *)

From Stdlib Require Import ZArith List Bool String Ascii Lia QArith.
From Stdlib Require Import Strings.Byte DecimalString.
From Stdlib Require Import Floats.SpecFloat.
Import ListNotations.
Open Scope Z_scope.

(** ** Python values *)

(** A [bytes] object; indexing it gives an [int] in [0, 255]. *)
Definition bytes := list byte.

Definition int_of_byte (b : byte) : Z := Z.of_N (Byte.to_N b).

(** Python's [float] is IEEE 754 binary64.  It is modelled by the
    specification floats of the standard library (radix 2, 53 bits of
    precision, round to nearest even), not by rationals: the exactness of
    the two divisions of the decoder is proved, not assumed. *)
Module PyFloat.

Definition prec : Z := 53.
Definition emax : Z := 1024.

Definition float := spec_float.

(** [float(n)] for an [int] [n]. *)
Definition of_int (n : Z) : float := binary_normalize prec emax n 0 false.

(** [x / y] for a divisor that is not zero (a zero divisor raises
    [ZeroDivisionError] in Python; the driver only divides by the
    literals [64.0] and [4.0]). *)
Definition truediv (x y : float) : float := SFdiv prec emax x y.

Definition mul (x y : float) : float := SFmul prec emax x y.

(** [x > y]. *)
Definition gt (x y : float) : bool := SFltb y x.

(** The literals [64.0] and [4.0], and [0] as it is compared with a
    float. *)
Definition lit_64_0 : float := S754_finite false 4503599627370496 (-46).
Definition lit_4_0 : float := S754_finite false 4503599627370496 (-50).
Definition zero : float := S754_zero false.

(** The rational a finite float denotes. *)
Definition value (x : float) : option Q :=
  match x with
  | S754_zero _ => Some (0 # 1)
  | S754_finite s m e =>
      Some (match e with
            | Z0 => cond_Zopp s (Zpos m) # 1
            | Zpos p => (cond_Zopp s (Zpos m) * 2 ^ Zpos p) # 1
            | Zneg p => cond_Zopp s (Zpos m) # (2 ^ p)%positive
            end)
  | S754_infinity _ | S754_nan => None
  end.

(** [x] is finite and denotes exactly [q]. *)
Definition is_exactly (x : float) (q : Q) : Prop :=
  match value x with
  | Some q' => q' == q
  | None => False
  end.

Definition is_exactlyb (x : float) (q : Q) : bool :=
  match value x with
  | Some q' => Qeq_bool q' q
  | None => false
  end.

(** Structural equality of floats. *)
Definition same (x y : float) : bool :=
  match x, y with
  | S754_zero s, S754_zero s' => Bool.eqb s s'
  | S754_infinity s, S754_infinity s' => Bool.eqb s s'
  | S754_nan, S754_nan => true
  | S754_finite s m e, S754_finite s' m' e' =>
      Bool.eqb s s' && Pos.eqb m m' && Z.eqb e e'
  | _, _ => false
  end.

End PyFloat.

(** Exceptions the driver can raise: [Exception(msg)] from its own
    [raise] statements, [struct.error] from [struct.pack]/[struct.unpack],
    [IndexError] from indexing a [bytes] object. *)
Inductive exn : Type :=
| Exception (msg : string)
| StructError
| IndexError.

Inductive outcome (A : Type) : Type :=
| Return (a : A)
| Raise (e : exn).
Arguments Return {A} a.
Arguments Raise {A} e.

(** ** The serial transport (pyserial, outside the repository)

    An open port.  [rx] is what the device will deliver, as bursts: the
    bytes of one burst arrive without a pause as long as the read timeout,
    and a timeout separates a burst from the next one.  [tx] is what has
    been written to the device. *)
Record Serial : Type := mkSerial { rx : list bytes; tx : bytes }.

(** The driver's methods: they read and write the port and may raise. *)
Definition M (A : Type) : Type := Serial -> outcome A * Serial.

Definition ret {A} (a : A) : M A := fun s => (Return a, s).

Definition raise {A} (e : exn) : M A := fun s => (Raise e, s).

Definition bind {A B} (c : M A) (k : A -> M B) : M B :=
  fun s =>
    match c s with
    | (Return a, s') => k a s'
    | (Raise e, s') => (Raise e, s')
    end.

Notation "x <- c ;; k" := (bind c (fun x => k))
  (at level 61, c at next level, right associativity).
Notation "' pat <- c ;; k" := (bind c (fun x => match x with pat => k end))
  (at level 61, pat pattern, c at next level, right associativity).
Notation "c ;;; k" := (bind c (fun _ => k))
  (at level 61, right associativity).

(** [serial.read(n)]: [n] bytes when the current burst has that many,
    otherwise what is left of the burst (possibly nothing) once the timeout
    has expired. *)
Definition serial_read (n : nat) : M bytes :=
  fun s =>
    match rx s with
    | [] => (Return [], s)
    | burst :: later =>
        if (n <=? List.length burst)%nat
        then (Return (firstn n burst), mkSerial (skipn n burst :: later) (tx s))
        else (Return burst, mkSerial later (tx s))
    end.

(** [serial.write(req)]. *)
Definition serial_write (req : bytes) : M unit :=
  fun s => (Return tt, mkSerial (rx s) (tx s ++ req)%list).

(** [serial.reset_input_buffer()]: the bytes received and not yet read are
    thrown away.  How many bytes of the current burst have been received
    when the call is made is a matter of timing, hence the parameter
    [buffered]. *)
Definition serial_reset_input_buffer (buffered : nat) : M unit :=
  fun s =>
    match rx s with
    | [] => (Return tt, s)
    | burst :: later =>
        (Return tt, mkSerial (skipn buffered burst :: later) (tx s))
    end.

(** [try: body / except Exception as e: handler e]; every exception of
    [exn] is an [Exception]. *)
Definition try_except {A} (body : M A) (handler : exn -> M A) : M A :=
  fun s =>
    match body s with
    | (Return a, s') => (Return a, s')
    | (Raise e, s') => handler e s'
    end.

(** [try: body / finally: final]: [final] runs in every case; an exception
    of [final] replaces the outcome of [body]. *)
Definition try_finally {A} (body : M A) (final : M unit) : M A :=
  fun s =>
    match body s with
    | (r, s') =>
        match final s' with
        | (Return _, s'') => (r, s'')
        | (Raise e, s'') => (Raise e, s'')
        end
    end.

(** [data[i]]. *)
Definition getitem (data : bytes) (i : nat) : M Z :=
  match nth_error data i with
  | Some b => ret (int_of_byte b)
  | None => raise IndexError
  end.

(** [len(data) == n]. *)
Definition len_is (data : bytes) (n : nat) : bool := (List.length data =? n)%nat.

(** ** [struct], [str] and [bytes.hex] *)

(** One ['B'] field of [struct.pack]: an [int] in [0, 255], else
    [struct.error]. *)
Definition pack_B (v : Z) : M byte :=
  if (0 <=? v) && (v <? 256)
  then match Byte.of_N (Z.to_N v) with
       | Some b => ret b
       | None => raise StructError
       end
  else raise StructError.

(** [struct.pack('<BB', a, b)]. *)
Definition struct_pack_BB (a b : Z) : M bytes :=
  x <- pack_B a ;;
  y <- pack_B b ;;
  ret [x; y].

(** [struct.unpack('<BBBB16s', data)]: four unsigned bytes and a 16-byte
    string; [struct.error] unless [data] has 20 bytes. *)
Definition struct_unpack_BBBB16s (data : bytes) : M (Z * Z * Z * Z * bytes) :=
  match data with
  | b0 :: b1 :: b2 :: b3 :: s =>
      if len_is s 16
      then ret (int_of_byte b0, int_of_byte b1, int_of_byte b2, int_of_byte b3, s)
      else raise StructError
  | _ => raise StructError
  end.

(** [struct.unpack('<BH', data)]: an unsigned byte and a little-endian
    unsigned 16-bit integer; [struct.error] unless [data] has 3 bytes. *)
Definition struct_unpack_BH (data : bytes) : M (Z * Z) :=
  match data with
  | [b0; lo; hi] => ret (int_of_byte b0, int_of_byte lo + 256 * int_of_byte hi)
  | _ => raise StructError
  end.

(** [str(n)], as an f-string renders an [int]. *)
Definition str_of_int (n : Z) : string := NilZero.string_of_int (Z.to_int n).

Definition hex_digit (n : N) : ascii :=
  match String.get (N.to_nat n) "0123456789abcdef" with
  | Some c => c
  | None => "0"%char
  end.

(** [data.hex()]: two lower-case hexadecimal digits per byte. *)
Fixpoint bytes_hex (data : bytes) : string :=
  match data with
  | [] => EmptyString
  | b :: rest =>
      String (hex_digit (N.div (Byte.to_N b) 16))
        (String (hex_digit (N.modulo (Byte.to_N b) 16)) (bytes_hex rest))
  end.

(** ** [2dplot.py], class [RPLidarA1] *)
Module Plot2D.

Definition SYNC_BYTE : Z := 0xA5.
Definition SYNC_BYTE2 : Z := 0x5A.

Definition GET_INFO : Z := 0x50.
Definition GET_HEALTH : Z := 0x52.
Definition STOP : Z := 0x25.
Definition RESET : Z := 0x40.
Definition SCAN : Z := 0x20.
Definition EXPRESS_SCAN : Z := 0x82.

Definition DESCRIPTOR_LEN : nat := 7.
Definition INFO_LEN : nat := 20.
Definition HEALTH_LEN : nat := 3.

(** The dictionaries the methods return, with their fixed keys. *)
Record Info : Type := mkInfo {
  model : Z;
  firmware : string;
  hardware : Z;
  serial_number : string
}.

Record Health : Type := mkHealth { status : Z; error_code : Z }.

Record Sample : Type := mkSample {
  angle : PyFloat.float;
  distance : PyFloat.float;
  quality : Z;
  start_flag : bool
}.

Definition _send_command (cmd : Z) : M unit :=
  req <- struct_pack_BB SYNC_BYTE cmd ;;
  serial_write req.

Definition _read_descriptor : M bytes :=
  descriptor <- serial_read DESCRIPTOR_LEN ;;
  if negb (len_is descriptor DESCRIPTOR_LEN)
  then raise (Exception "Failed to read descriptor")
  else ret descriptor.

(** [None] is Python's [None]. *)
Definition get_info : M (option Info) :=
  _send_command GET_INFO ;;;
  descriptor <- _read_descriptor ;;
  data <- serial_read INFO_LEN ;;
  if len_is data INFO_LEN
  then
    '(model, firmware_minor, firmware_major, hardware, serial_number)
      <- struct_unpack_BBBB16s data ;;
    ret (Some (mkInfo model
                 (str_of_int firmware_major ++ "." ++ str_of_int firmware_minor)%string
                 hardware
                 (bytes_hex serial_number)))
  else ret None.

Definition get_health : M (option Health) :=
  _send_command GET_HEALTH ;;;
  descriptor <- _read_descriptor ;;
  data <- serial_read HEALTH_LEN ;;
  if len_is data HEALTH_LEN
  then
    '(status, error_code) <- struct_unpack_BH data ;;
    ret (Some (mkHealth status error_code))
  else ret None.

Definition start_scan : M unit :=
  _send_command SCAN ;;;
  descriptor <- _read_descriptor ;;
  d0 <- getitem descriptor 0 ;;
  bad <- (if negb (d0 =? SYNC_BYTE)
          then ret true
          else d1 <- getitem descriptor 1 ;; ret (negb (d1 =? SYNC_BYTE2))) ;;
  if bad : bool
  then raise (Exception "Failed to start scan")
  else ret tt.

(** The parsing statements of [read_scan_data] (lines 144 to 151), in
    their order: quality, start flag, angle, distance. *)
Definition parse_frame (data : bytes) : M (Z * bool * PyFloat.float * PyFloat.float) :=
  d0 <- getitem data 0 ;;
  let quality := Z.shiftr d0 2 in
  d0' <- getitem data 0 ;;
  let start_flag := Z.land d0' 0x01 =? 1 in
  d2 <- getitem data 2 ;;
  d1 <- getitem data 1 ;;
  let angle := Z.shiftr (Z.lor (Z.shiftl d2 8) d1) 1 in
  let angle := PyFloat.truediv (PyFloat.of_int angle) PyFloat.lit_64_0 in
  d4 <- getitem data 4 ;;
  d3 <- getitem data 3 ;;
  let distance := Z.lor (Z.shiftl d4 8) d3 in
  let distance := PyFloat.truediv (PyFloat.of_int distance) PyFloat.lit_4_0 in
  ret (quality, start_flag, angle, distance).

(** One turn of the [while True] loop of [read_scan_data]: [Some s] when
    the turn reaches [yield s], [None] when it yields nothing. *)
Definition read_scan_turn : M (option Sample) :=
  data <- serial_read 5 ;;
  if len_is data 5
  then
    '(quality, start_flag, angle, distance) <- parse_frame data ;;
    if (quality >? 0) && PyFloat.gt distance PyFloat.zero
    then ret (Some (mkSample angle distance quality start_flag))
    else ret None
  else ret None.

(** The generator [read_scan_data], run for [n] turns of its loop: the
    samples it yields, in order. *)
Fixpoint read_scan_data (n : nat) : M (list Sample) :=
  match n with
  | O => ret []
  | S n' =>
      y <- read_scan_turn ;;
      rest <- read_scan_data n' ;;
      ret (match y with Some s => s :: rest | None => rest end)
  end.

(** The driver calls of [main] from the start of the scan on: the scan is
    started, then the visualizer pulls samples from [read_scan_data]. *)
Definition scan_session (n : nat) : M (list Sample) :=
  start_scan ;;;
  read_scan_data n.

(** [time.sleep] has no effect on the port and is left out. *)
Definition stop_scan (buffered : nat) : M unit :=
  _send_command STOP ;;;
  serial_reset_input_buffer buffered.

Definition reset : M unit :=
  _send_command RESET.

(** [next(self.lidar.read_scan_data())], as [LidarVisualizer.update] pulls a
    sample: a fresh generator is run to its first [yield].  [fuel] bounds
    the turns of the loop; [None] is a pull still waiting after [fuel]
    turns. *)
Fixpoint next_sample (fuel : nat) : M (option Sample) :=
  match fuel with
  | O => ret None
  | S fuel' =>
      y <- read_scan_turn ;;
      match y with
      | Some s => ret (Some s)
      | None => next_sample fuel'
      end
  end.

(** The driver calls of [main] on a connected driver, with its exception
    handling: [get_info], [get_health], [start_scan], then the visualizer
    (any use of the port), all inside [try]; [except Exception] prints and
    goes on; [finally] stops the scan.  The [print] calls and
    [connect]/[disconnect] are left out. *)
Definition main_driver_calls (visualizer : M unit) (buffered : nat) : M unit :=
  try_finally
    (try_except
       (info <- get_info ;;
        health <- get_health ;;
        start_scan ;;;
        visualizer)
       (fun e => ret tt))
    (stop_scan buffered).

End Plot2D.

(** ** [3dplot.py], class [RPLidarA1]

    The second copy of the driver: no [EXPRESS_SCAN], no [get_health], no
    [reset], and samples without a start flag. *)
Module Plot3D.

Definition SYNC_BYTE : Z := 0xA5.
Definition SYNC_BYTE2 : Z := 0x5A.

Definition GET_INFO : Z := 0x50.
Definition GET_HEALTH : Z := 0x52.
Definition STOP : Z := 0x25.
Definition RESET : Z := 0x40.
Definition SCAN : Z := 0x20.

Definition DESCRIPTOR_LEN : nat := 7.
Definition INFO_LEN : nat := 20.
Definition HEALTH_LEN : nat := 3.

Record Info : Type := mkInfo {
  model : Z;
  firmware : string;
  hardware : Z;
  serial_number : string
}.

Record Sample : Type := mkSample {
  angle : PyFloat.float;
  distance : PyFloat.float;
  quality : Z
}.

Definition _send_command (cmd : Z) : M unit :=
  req <- struct_pack_BB SYNC_BYTE cmd ;;
  serial_write req.

Definition _read_descriptor : M bytes :=
  descriptor <- serial_read DESCRIPTOR_LEN ;;
  if negb (len_is descriptor DESCRIPTOR_LEN)
  then raise (Exception "ディスクリプタの読み取りに失敗")
  else ret descriptor.

Definition get_info : M (option Info) :=
  _send_command GET_INFO ;;;
  descriptor <- _read_descriptor ;;
  data <- serial_read INFO_LEN ;;
  if len_is data INFO_LEN
  then
    '(model, firmware_minor, firmware_major, hardware, serial_number)
      <- struct_unpack_BBBB16s data ;;
    ret (Some (mkInfo model
                 (str_of_int firmware_major ++ "." ++ str_of_int firmware_minor)%string
                 hardware
                 (bytes_hex serial_number)))
  else ret None.

Definition start_scan : M unit :=
  _send_command SCAN ;;;
  descriptor <- _read_descriptor ;;
  d0 <- getitem descriptor 0 ;;
  bad <- (if negb (d0 =? SYNC_BYTE)
          then ret true
          else d1 <- getitem descriptor 1 ;; ret (negb (d1 =? SYNC_BYTE2))) ;;
  if bad : bool
  then raise (Exception "スキャン開始に失敗")
  else ret tt.

(** The parsing statements of [read_scan_data] (lines 101 to 105):
    quality, angle, distance. *)
Definition parse_frame (data : bytes) : M (Z * PyFloat.float * PyFloat.float) :=
  d0 <- getitem data 0 ;;
  let quality := Z.shiftr d0 2 in
  d2 <- getitem data 2 ;;
  d1 <- getitem data 1 ;;
  let angle := Z.shiftr (Z.lor (Z.shiftl d2 8) d1) 1 in
  let angle := PyFloat.truediv (PyFloat.of_int angle) PyFloat.lit_64_0 in
  d4 <- getitem data 4 ;;
  d3 <- getitem data 3 ;;
  let distance := Z.lor (Z.shiftl d4 8) d3 in
  let distance := PyFloat.truediv (PyFloat.of_int distance) PyFloat.lit_4_0 in
  ret (quality, angle, distance).

Definition read_scan_turn : M (option Sample) :=
  data <- serial_read 5 ;;
  if len_is data 5
  then
    '(quality, angle, distance) <- parse_frame data ;;
    if (quality >? 0) && PyFloat.gt distance PyFloat.zero
    then ret (Some (mkSample angle distance quality))
    else ret None
  else ret None.

Fixpoint read_scan_data (n : nat) : M (list Sample) :=
  match n with
  | O => ret []
  | S n' =>
      y <- read_scan_turn ;;
      rest <- read_scan_data n' ;;
      ret (match y with Some s => s :: rest | None => rest end)
  end.

Definition scan_session (n : nat) : M (list Sample) :=
  start_scan ;;;
  read_scan_data n.

Definition stop_scan (buffered : nat) : M unit :=
  _send_command STOP ;;;
  serial_reset_input_buffer buffered.

(** [next(lidar_instance.read_scan_data())], as [scan_worker] pulls a
    sample; [None] is a pull still waiting after [fuel] turns. *)
Fixpoint next_sample (fuel : nat) : M (option Sample) :=
  match fuel with
  | O => ret None
  | S fuel' =>
      y <- read_scan_turn ;;
      match y with
      | Some s => ret (Some s)
      | None => next_sample fuel'
      end
  end.

(** The driver calls of [main] on a connected driver: [get_info],
    [start_scan], then the scan thread and the web application (any use of
    the port), all inside [try]; [except Exception] prints and goes on;
    [finally] stops the scan. *)
Definition main_driver_calls (app : M unit) (buffered : nat) : M unit :=
  try_finally
    (try_except
       (info <- get_info ;;
        start_scan ;;;
        app)
       (fun e => ret tt))
    (stop_scan buffered).

End Plot3D.

(** ** The protocol as the specification words it *)
Module Spec.

Inductive Command : Type := GetInfo | GetHealth | Stop | Reset | Scan.

Definition opcode (c : Command) : Z :=
  match c with
  | GetInfo => 0x50
  | GetHealth => 0x52
  | Stop => 0x25
  | Reset => 0x40
  | Scan => 0x20
  end.

(** The request frame [[0xA5, opcode]]. *)
Definition encode (c : Command) : bytes :=
  match c with
  | GetInfo => [xa5; x50]
  | GetHealth => [xa5; x52]
  | Stop => [xa5; x25]
  | Reset => [xa5; x40]
  | Scan => [xa5; x20]
  end.

(** The fields of a scan frame [[b0, b1, b2, b3, b4]], over the values
    of its bytes; degrees and millimetres are exact rationals. *)
Definition quality (b0 : Z) : Z := Z.shiftr b0 2.
Definition is_new_scan (b0 : Z) : bool := Z.land b0 0x01 =? 1.
Definition angle_raw (b1 b2 : Z) : Z := Z.shiftr (Z.lor (Z.shiftl b2 8) b1) 1.
Definition angle_degrees (b1 b2 : Z) : Q := inject_Z (angle_raw b1 b2) / 64.
Definition distance_raw (b3 b4 : Z) : Z := Z.lor (Z.shiftl b4 8) b3.
Definition distance_mm (b3 b4 : Z) : Q := inject_Z (distance_raw b3 b4) / 4.

End Spec.

(** The class constant the driver passes to [_send_command] for each
    command: [get_info], [get_health], [stop_scan], [reset], [start_scan]. *)
Definition command_constant (c : Spec.Command) : Z :=
  match c with
  | Spec.GetInfo => Plot2D.GET_INFO
  | Spec.GetHealth => Plot2D.GET_HEALTH
  | Spec.Stop => Plot2D.STOP
  | Spec.Reset => Plot2D.RESET
  | Spec.Scan => Plot2D.SCAN
  end.

(** What the 3-D driver's sample keeps of a 2-D sample: the start flag is
    dropped. *)
Definition forget_start_flag (s : Plot2D.Sample) : Plot3D.Sample :=
  Plot3D.mkSample (Plot2D.angle s) (Plot2D.distance s) (Plot2D.quality s).

(** A bounded universal check over the integers [z, z+1, ..., z+k-1]. *)
Fixpoint all_from (k : nat) (z : Z) (p : Z -> bool) : bool :=
  match k with
  | O => true
  | S k' => if p z then all_from k' (z + 1) p else false
  end.

(** What the decoder relies on for a raw field [n] scaled by the literal
    [lit]: [float(n)] is exact, [float(n) / lit] is exact, multiplying back
    returns [float(n)], and the quotient is positive exactly when [n] is. *)
Definition scaling_exact (lit : PyFloat.float) (d : positive) (n : Z) : bool :=
  let x := PyFloat.of_int n in
  let y := PyFloat.truediv x lit in
  PyFloat.is_exactlyb x (n # 1)
  && PyFloat.is_exactlyb y (n # d)
  && PyFloat.same (PyFloat.mul y lit) x
  && Bool.eqb (PyFloat.gt y PyFloat.zero) (0 <? n).

(** The float angle and the float distance the decoder computes from the
    bytes of a frame, over the raw fields as the specification names them. *)
Definition frame_angle (b1 b2 : byte) : PyFloat.float :=
  PyFloat.truediv
    (PyFloat.of_int (Spec.angle_raw (int_of_byte b1) (int_of_byte b2)))
    PyFloat.lit_64_0.

Definition frame_distance (b3 b4 : byte) : PyFloat.float :=
  PyFloat.truediv
    (PyFloat.of_int (Spec.distance_raw (int_of_byte b3) (int_of_byte b4)))
    PyFloat.lit_4_0.

(** A function applied to what a method returns; a raised exception is
    passed on. *)
Definition map_result {A B : Type} (f : A -> B) (r : outcome A * Serial)
  : outcome B * Serial :=
  match r with
  | (Return a, s) => (Return (f a), s)
  | (Raise e, s) => (Raise e, s)
  end.

(** ** Frames on the wire *)

Definition Frame : Type := (byte * byte * byte * byte * byte)%type.

Definition frame_bytes (f : Frame) : bytes :=
  let '(b0, b1, b2, b3, b4) := f in [b0; b1; b2; b3; b4].

(** The sample of a frame, if the decoder keeps the frame. *)
Definition frame_sample (f : Frame) : option Plot2D.Sample :=
  let '(b0, b1, b2, b3, b4) := f in
  if (Spec.quality (int_of_byte b0) >? 0)
     && (0 <? Spec.distance_raw (int_of_byte b3) (int_of_byte b4))
  then Some (Plot2D.mkSample (frame_angle b1 b2) (frame_distance b3 b4)
               (Spec.quality (int_of_byte b0))
               (Spec.is_new_scan (int_of_byte b0)))
  else None.

Fixpoint kept_samples (fs : list Frame) : list Plot2D.Sample :=
  match fs with
  | [] => []
  | f :: rest =>
      match frame_sample f with
      | Some s => s :: kept_samples rest
      | None => kept_samples rest
      end
  end.

(** The bytes the device has still to deliver. *)
Definition pending (s : Serial) : nat := List.length (List.concat (rx s)).

(** The last [n] elements of a list. *)
Definition lastn {A} (n : nat) (l : list A) : list A :=
  skipn (List.length l - n) l.

(** ** [2dplot.py], [LidarVisualizer.update]: the angle bins *)
Module LidarVisualizer.

(** [ANGLE_RESOLUTION = 0.5]. *)
Definition ANGLE_RESOLUTION : PyFloat.float :=
  S754_finite false 4503599627370496 (-53).

(** The integer nearest to [m / 2^p], a tie going to the even one. *)
Definition round_half_even (m : Z) (p : positive) : Z :=
  let d := Z.pow_pos 2 p in
  let q := m / d in
  let r := m mod d in
  match 2 * r ?= d with
  | Lt => q
  | Gt => q + 1
  | Eq => if Z.even q then q else q + 1
  end.

(** [round(x)] for a float [x]: an [int], a tie going to the even one;
    [None] where Python raises ([OverflowError] for an infinity,
    [ValueError] for a NaN). *)
Definition round (x : PyFloat.float) : option Z :=
  match x with
  | S754_zero _ => Some 0
  | S754_finite s m e =>
      Some (match e with
            | Z0 => cond_Zopp s (Zpos m)
            | Zpos p => cond_Zopp s (Zpos m * Z.pow_pos 2 p)
            | Zneg p => cond_Zopp s (round_half_even (Zpos m) p)
            end)
  | S754_infinity _ | S754_nan => None
  end.

(** [round(data['angle'] / ANGLE_RESOLUTION) * ANGLE_RESOLUTION]. *)
Definition angle_key (angle : PyFloat.float) : option PyFloat.float :=
  match round (PyFloat.truediv angle ANGLE_RESOLUTION) with
  | Some k => Some (PyFloat.mul (PyFloat.of_int k) ANGLE_RESOLUTION)
  | None => None
  end.

(** [angle_dict], a [dict] from float keys to float values: the entries
    in insertion order; keys are compared with [==]. *)
Definition dict : Type := list (PyFloat.float * PyFloat.float).

Definition key_eq (x y : PyFloat.float) : bool := SFeqb x y.

(** [d[key] = value]: the value of an equal key is replaced where it is,
    a new key goes to the end. *)
Fixpoint dict_set (key value : PyFloat.float) (d : dict) : dict :=
  match d with
  | [] => [(key, value)]
  | (k, v) :: rest =>
      if key_eq k key then (k, value) :: rest
      else (k, v) :: dict_set key value rest
  end.

(** [d.get(key)]. *)
Fixpoint dict_get (key : PyFloat.float) (d : dict) : option PyFloat.float :=
  match d with
  | [] => None
  | (k, v) :: rest => if key_eq k key then Some v else dict_get key rest
  end.

(** The body of the collection loop of [update] for one pulled sample:
    the dictionary and [point_count] after it; [None] where [round]
    raises. *)
Definition collect_one (st : dict * Z) (data : Plot2D.Sample) : option (dict * Z) :=
  let '(angle_dict, point_count) := st in
  match angle_key (Plot2D.angle data) with
  | Some key =>
      Some (dict_set key (Plot2D.distance data) angle_dict, point_count + 1)
  | None => None
  end.

(** The collection loop of [update] over the samples it pulls, in order,
    from [angle_dict = {}] and [point_count = 0]. *)
Fixpoint collect_from (st : dict * Z) (pulled : list Plot2D.Sample)
  : option (dict * Z) :=
  match pulled with
  | [] => Some st
  | data :: rest =>
      match collect_one st data with
      | Some st' => collect_from st' rest
      | None => None
      end
  end.

Definition collect (pulled : list Plot2D.Sample) : option (dict * Z) :=
  collect_from ([], 0) pulled.

End LidarVisualizer.

(** ** [3dplot.py]: the scan thread and the decimation of [update_graph] *)
Module Dash3D.

(** [collections.deque(maxlen=...)].append: once the deque is full the
    oldest element is dropped. *)
Definition deque_append {A} (maxlen : nat) (x : A) (d : list A) : list A :=
  if (List.length d <? maxlen)%nat then d ++ [x] else skipn 1 (d ++ [x]).

Definition MAXLEN : nat := 1800.

(** The global [lidar_data]. *)
Record LidarData : Type := mkLidarData {
  angles : list PyFloat.float;
  distances : list PyFloat.float;
  qualities : list Z
}.

Definition lidar_data_init : LidarData := mkLidarData [] [] [].

(** The three [append] calls of [scan_worker], made under [data_lock]. *)
Definition append_sample (data : Plot3D.Sample) (d : LidarData) : LidarData :=
  mkLidarData
    (deque_append MAXLEN (Plot3D.angle data) (angles d))
    (deque_append MAXLEN (Plot3D.distance data) (distances d))
    (deque_append MAXLEN (Plot3D.quality data) (qualities d)).

(** [scan_worker] for [k] turns of its [while running] loop (the flag is
    cleared by the main thread): each turn pulls one sample and appends it;
    any exception ends the loop ([except: break]).  [None] is a worker
    still waiting in a pull after [fuel] turns of the decoder. *)
Fixpoint scan_worker (k fuel : nat) (d : LidarData) : M (option LidarData) :=
  match k with
  | O => ret (Some d)
  | S k' =>
      fun s =>
        match Plot3D.next_sample fuel s with
        | (Return (Some data), s') => scan_worker k' fuel (append_sample data d) s'
        | (Return None, s') => (Return None, s')
        | (Raise e, s') => (Return (Some d), s')
        end
  end.

(** [l[::step]] for [step >= 1]: the elements of index 0, [step],
    [2*step], ...; [skip] counts down to the next element kept. *)
Fixpoint every_nth {A} (step skip : nat) (l : list A) : list A :=
  match l with
  | [] => []
  | x :: rest =>
      match skip with
      | O => x :: every_nth step (step - 1) rest
      | S skip' => every_nth step skip' rest
      end
  end.

Definition slice_step {A} (step : nat) (l : list A) : list A :=
  every_nth step 0 l.

(** [step = max(1, len(angles) // max_points)] and [angles[::step]] of
    [update_graph]; [None] is the [ZeroDivisionError] of [max_points = 0]. *)
Definition decimation_step (len : nat) (max_points : Z) : option nat :=
  if max_points =? 0 then None
  else Some (Z.to_nat (Z.max 1 (Z.of_nat len / max_points))).

Definition decimate {A} (max_points : Z) (l : list A) : option (list A) :=
  match decimation_step (List.length l) max_points with
  | Some step => Some (slice_step step l)
  | None => None
  end.

End Dash3D.

(** The check [start_scan] makes on the descriptor: its first two bytes are
    [SYNC_BYTE], [SYNC_BYTE2]. *)
Definition scan_descriptor_ok (d : bytes) : bool :=
  match d with
  | d0 :: d1 :: _ => (int_of_byte d0 =? 0xA5) && (int_of_byte d1 =? 0x5A)
  | _ => false
  end.

(** What is checked of the bin of the raw angle [n]: the key is the float
    that is exactly [k / 2] for the integer [k] nearest to [n / 32], a tie
    going to the even [k]. *)
Definition angle_key_exact (n : Z) : bool :=
  match LidarVisualizer.angle_key
          (PyFloat.truediv (PyFloat.of_int n) PyFloat.lit_64_0) with
  | Some key =>
      let k := LidarVisualizer.round_half_even n 5 in
      PyFloat.is_exactlyb key (k # 2)
      && (Z.abs (32 * k - n) <=? 16)
      && (implb (Z.abs (32 * k - n) =? 16) (Z.even k))
      && LidarVisualizer.key_eq key key
  | None => false
  end.

(** * Properties *)

(** ** Bounded checks and the exactness of the decoder's float arithmetic *)

Lemma all_from_spec (k : nat) (z : Z) (p : Z -> bool) :
  all_from k z p = true ->
  forall n, z <= n < z + Z.of_nat k -> p n = true.
Proof.
  revert z; induction k as [|k IH]; intros z H n Hn.
  - lia.
  - simpl in H. destruct (p z) eqn:Hz; [|discriminate].
    destruct (Z.eq_dec n z) as [->|Hne]; [exact Hz|].
    apply (IH (z + 1) H). lia.
Qed.

Lemma same_eq (x y : PyFloat.float) : PyFloat.same x y = true -> x = y.
Proof.
  destruct x as [s|s| |s m e], y as [s'|s'| |s' m' e']; simpl; try discriminate.
  - intros H; apply Bool.eqb_prop in H; congruence.
  - intros H; apply Bool.eqb_prop in H; congruence.
  - reflexivity.
  - intros H. apply andb_prop in H as [H He]. apply andb_prop in H as [Hs Hm].
    apply Bool.eqb_prop in Hs. apply Pos.eqb_eq in Hm. apply Z.eqb_eq in He.
    congruence.
Qed.

Lemma is_exactlyb_sound (x : PyFloat.float) (q : Q) :
  PyFloat.is_exactlyb x q = true -> PyFloat.is_exactly x q.
Proof.
  unfold PyFloat.is_exactlyb, PyFloat.is_exactly.
  destruct (PyFloat.value x); [apply Qeq_bool_eq | discriminate].
Qed.

Lemma is_exactly_Qeq (x : PyFloat.float) (q r : Q) :
  PyFloat.is_exactly x q -> q == r -> PyFloat.is_exactly x r.
Proof.
  unfold PyFloat.is_exactly. destruct (PyFloat.value x); [|tauto].
  intros H1 H2; now rewrite H1.
Qed.

Lemma scaling_exact_sound (lit : PyFloat.float) (d : positive) (n : Z) :
  scaling_exact lit d n = true ->
  let y := PyFloat.truediv (PyFloat.of_int n) lit in
  PyFloat.is_exactly (PyFloat.of_int n) (inject_Z n)
  /\ PyFloat.is_exactly y (inject_Z n / inject_Z (Zpos d))
  /\ PyFloat.mul y lit = PyFloat.of_int n
  /\ PyFloat.gt y PyFloat.zero = (0 <? n).
Proof.
  unfold scaling_exact. intros H; cbv zeta.
  apply andb_prop in H as [H H4]. apply andb_prop in H as [H H3].
  apply andb_prop in H as [H1 H2].
  repeat split.
  - apply is_exactlyb_sound in H1. exact H1.
  - apply is_exactlyb_sound in H2.
    apply (is_exactly_Qeq _ _ _ H2). apply Qmake_Qdiv.
  - apply same_eq, H3.
  - apply Bool.eqb_prop, H4.
Qed.

(** Every 16-bit raw distance is scaled exactly by [/ 4.0]. *)
Lemma distance_scaling_checked :
  all_from (Z.to_nat 65536) 0 (scaling_exact PyFloat.lit_4_0 4) = true.
Proof. vm_cast_no_check (eq_refl true). Qed.

(** Every 15-bit raw angle is scaled exactly by [/ 64.0]. *)
Lemma angle_scaling_checked :
  all_from (Z.to_nat 32768) 0 (scaling_exact PyFloat.lit_64_0 64) = true.
Proof. vm_cast_no_check (eq_refl true). Qed.


(** ** Bytes and the raw fields *)

Lemma int_of_byte_range (b : byte) : 0 <= int_of_byte b < 256.
Proof.
  unfold int_of_byte. pose proof (Byte.to_N_bounded b) as H.
  apply N2Z.inj_le in H. change (Z.of_N 255) with 255 in H. lia.
Qed.

Lemma lor_shiftl_8 (hi lo : Z) :
  0 <= lo < 256 -> Z.lor (Z.shiftl hi 8) lo = hi * 256 + lo.
Proof.
  intros Hlo.
  assert (Hland : Z.land (Z.shiftl hi 8) lo = 0).
  { apply Z.bits_inj'. intros n Hn.
    rewrite Z.land_spec, Z.bits_0.
    destruct (Z.lt_ge_cases n 8) as [Hlt|Hge].
    - rewrite Z.shiftl_spec_low by exact Hlt. reflexivity.
    - destruct (Z.eq_dec lo 0) as [->|Hnz].
      + rewrite Z.bits_0. apply andb_false_r.
      + rewrite (Z.bits_above_log2 lo n); [apply andb_false_r|lia|].
        assert (Z.log2 lo < 8); [|lia].
        apply Z.log2_lt_pow2; [lia|]. change (2 ^ 8) with 256. lia. }
  rewrite <- Z.lxor_lor by exact Hland.
  rewrite <- Z.add_nocarry_lxor by exact Hland.
  rewrite Z.shiftl_mul_pow2 by lia. reflexivity.
Qed.

Lemma quality_div (b0 : Z) : Spec.quality b0 = b0 / 4.
Proof. unfold Spec.quality. now rewrite Z.shiftr_div_pow2 by lia. Qed.

Lemma is_new_scan_odd (b0 : Z) : Spec.is_new_scan b0 = Z.odd b0.
Proof.
  unfold Spec.is_new_scan. change 0x01 with (Z.ones 1).
  rewrite Z.land_ones by lia. change (2 ^ 1) with 2.
  rewrite Zmod_odd. now destruct (Z.odd b0).
Qed.

Lemma distance_raw_value (b3 b4 : byte) :
  Spec.distance_raw (int_of_byte b3) (int_of_byte b4)
  = int_of_byte b4 * 256 + int_of_byte b3.
Proof. apply lor_shiftl_8, int_of_byte_range. Qed.

Lemma angle_raw_value (b1 b2 : byte) :
  Spec.angle_raw (int_of_byte b1) (int_of_byte b2)
  = (int_of_byte b2 * 256 + int_of_byte b1) / 2.
Proof.
  unfold Spec.angle_raw. rewrite lor_shiftl_8 by apply int_of_byte_range.
  now rewrite Z.shiftr_div_pow2 by lia.
Qed.

Lemma quality_range (b0 : byte) : 0 <= Spec.quality (int_of_byte b0) < 64.
Proof.
  rewrite quality_div. pose proof (int_of_byte_range b0).
  split; [apply Z.div_pos; lia | apply Z.div_lt_upper_bound; lia].
Qed.

Lemma distance_raw_range (b3 b4 : byte) :
  0 <= Spec.distance_raw (int_of_byte b3) (int_of_byte b4) < 65536.
Proof.
  rewrite distance_raw_value.
  pose proof (int_of_byte_range b3). pose proof (int_of_byte_range b4). lia.
Qed.

Lemma angle_raw_range (b1 b2 : byte) :
  0 <= Spec.angle_raw (int_of_byte b1) (int_of_byte b2) < 32768.
Proof.
  rewrite angle_raw_value.
  pose proof (int_of_byte_range b1). pose proof (int_of_byte_range b2).
  split; [apply Z.div_pos; lia | apply Z.div_lt_upper_bound; lia].
Qed.

(** The float the decoder makes of the raw angle and of the raw distance. *)
Lemma angle_scaling (n : Z) :
  0 <= n < 32768 ->
  let y := PyFloat.truediv (PyFloat.of_int n) PyFloat.lit_64_0 in
  PyFloat.is_exactly (PyFloat.of_int n) (inject_Z n)
  /\ PyFloat.is_exactly y (inject_Z n / 64)
  /\ PyFloat.mul y PyFloat.lit_64_0 = PyFloat.of_int n
  /\ PyFloat.gt y PyFloat.zero = (0 <? n).
Proof.
  intros Hn. apply (scaling_exact_sound PyFloat.lit_64_0 64 n).
  apply (all_from_spec _ _ _ angle_scaling_checked).
  rewrite Z2Nat.id; lia.
Qed.

Lemma distance_scaling (n : Z) :
  0 <= n < 65536 ->
  let y := PyFloat.truediv (PyFloat.of_int n) PyFloat.lit_4_0 in
  PyFloat.is_exactly (PyFloat.of_int n) (inject_Z n)
  /\ PyFloat.is_exactly y (inject_Z n / 4)
  /\ PyFloat.mul y PyFloat.lit_4_0 = PyFloat.of_int n
  /\ PyFloat.gt y PyFloat.zero = (0 <? n).
Proof.
  intros Hn. apply (scaling_exact_sound PyFloat.lit_4_0 4 n).
  apply (all_from_spec _ _ _ distance_scaling_checked).
  rewrite Z2Nat.id; lia.
Qed.

(** ** One scan frame through the decoder *)

Section Frame.

Variables b0 b1 b2 b3 b4 : byte.

Lemma parse_frame_2d (s : Serial) :
  Plot2D.parse_frame [b0; b1; b2; b3; b4] s
  = (Return (Spec.quality (int_of_byte b0), Spec.is_new_scan (int_of_byte b0),
             frame_angle b1 b2, frame_distance b3 b4), s).
Proof. reflexivity. Qed.

Lemma parse_frame_3d (s : Serial) :
  Plot3D.parse_frame [b0; b1; b2; b3; b4] s
  = (Return (Spec.quality (int_of_byte b0),
             frame_angle b1 b2, frame_distance b3 b4), s).
Proof. reflexivity. Qed.

Lemma distance_positive :
  PyFloat.gt (frame_distance b3 b4) PyFloat.zero
  = (0 <? Spec.distance_raw (int_of_byte b3) (int_of_byte b4)).
Proof. apply distance_scaling, distance_raw_range. Qed.

Lemma read_scan_turn_2d (s s' : Serial) :
  serial_read 5 s = (Return [b0; b1; b2; b3; b4], s') ->
  Plot2D.read_scan_turn s
  = (Return
       (if (Spec.quality (int_of_byte b0) >? 0)
           && (0 <? Spec.distance_raw (int_of_byte b3) (int_of_byte b4))
        then Some (Plot2D.mkSample (frame_angle b1 b2) (frame_distance b3 b4)
                     (Spec.quality (int_of_byte b0))
                     (Spec.is_new_scan (int_of_byte b0)))
        else None), s').
Proof.
  intros Hread. unfold Plot2D.read_scan_turn, bind at 1. rewrite Hread.
  change (len_is [b0; b1; b2; b3; b4] 5) with true. cbv iota.
  unfold bind. rewrite parse_frame_2d. rewrite distance_positive.
  now destruct (_ && _).
Qed.

Lemma read_scan_turn_3d (s s' : Serial) :
  serial_read 5 s = (Return [b0; b1; b2; b3; b4], s') ->
  Plot3D.read_scan_turn s
  = (Return
       (if (Spec.quality (int_of_byte b0) >? 0)
           && (0 <? Spec.distance_raw (int_of_byte b3) (int_of_byte b4))
        then Some (Plot3D.mkSample (frame_angle b1 b2) (frame_distance b3 b4)
                     (Spec.quality (int_of_byte b0)))
        else None), s').
Proof.
  intros Hread. unfold Plot3D.read_scan_turn, bind at 1. rewrite Hread.
  change (len_is [b0; b1; b2; b3; b4] 5) with true. cbv iota.
  unfold bind. rewrite parse_frame_3d. rewrite distance_positive.
  now destruct (_ && _).
Qed.

End Frame.

(** Once the device is silent the generator yields nothing more. *)
Lemma read_scan_data_silent (n : nat) (t : bytes) :
  Plot2D.read_scan_data n (mkSerial [] t) = (Return [], mkSerial [] t).
Proof.
  induction n as [|n IH]; [reflexivity|].
  cbn [Plot2D.read_scan_data]. unfold bind at 1.
  change (Plot2D.read_scan_turn (mkSerial [] t)) with (@Return (option Plot2D.Sample) None, mkSerial [] t).
  cbv iota beta. unfold bind. now rewrite IH.
Qed.

Lemma read_scan_data_burst_end (n : nat) (t : bytes) :
  Plot2D.read_scan_data n (mkSerial [[]] t)
  = (Return [], mkSerial (match n with O => [[]] | S _ => [] end) t).
Proof.
  destruct n as [|n]; [reflexivity|].
  cbn [Plot2D.read_scan_data]. unfold bind at 1.
  change (Plot2D.read_scan_turn (mkSerial [[]] t)) with (@Return (option Plot2D.Sample) None, mkSerial [] t).
  cbv iota beta. unfold bind. now rewrite read_scan_data_silent.
Qed.


(** ** The transport *)

Lemma serial_read_full (n : nat) (burst : bytes) (later : list bytes) (t : bytes) :
  (n <= List.length burst)%nat ->
  serial_read n (mkSerial (burst :: later) t)
  = (Return (firstn n burst), mkSerial (skipn n burst :: later) t).
Proof.
  intros H. unfold serial_read; cbn [rx tx].
  apply Nat.leb_le in H. now rewrite H.
Qed.

Lemma serial_read_short (n : nat) (burst : bytes) (later : list bytes) (t : bytes) :
  (List.length burst < n)%nat ->
  serial_read n (mkSerial (burst :: later) t) = (Return burst, mkSerial later t).
Proof.
  intros H. unfold serial_read; cbn [rx tx].
  apply Nat.leb_gt in H. now rewrite H.
Qed.

Lemma serial_read_returns (n : nat) (s : Serial) :
  exists data s', serial_read n s = (Return data, s').
Proof.
  unfold serial_read. destruct (rx s) as [|burst later]; [now eauto|].
  destruct (n <=? List.length burst)%nat; eauto.
Qed.

Lemma len_is_5_inv (data : bytes) :
  len_is data 5 = true -> exists b0 b1 b2 b3 b4, data = [b0; b1; b2; b3; b4].
Proof.
  unfold len_is. intros H. apply Nat.eqb_eq in H.
  destruct data as [|b0 [|b1 [|b2 [|b3 [|b4 [|b5 rest]]]]]]; try discriminate.
  now eauto 6.
Qed.

Lemma read_scan_turn_2d_other (s s' : Serial) (data : bytes) :
  serial_read 5 s = (Return data, s') -> len_is data 5 = false ->
  Plot2D.read_scan_turn s = (Return None, s').
Proof.
  intros Hread Hlen. unfold Plot2D.read_scan_turn, bind.
  now rewrite Hread, Hlen.
Qed.

Lemma read_scan_turn_3d_other (s s' : Serial) (data : bytes) :
  serial_read 5 s = (Return data, s') -> len_is data 5 = false ->
  Plot3D.read_scan_turn s = (Return None, s').
Proof.
  intros Hread Hlen. unfold Plot3D.read_scan_turn, bind.
  now rewrite Hread, Hlen.
Qed.

(** A sample comes from a full frame with a positive quality and a positive
    raw distance, and from nothing else. *)
Lemma read_scan_turn_yield_inv (s s' : Serial) (smp : Plot2D.Sample) :
  Plot2D.read_scan_turn s = (Return (Some smp), s') ->
  exists b0 b1 b2 b3 b4,
    serial_read 5 s = (Return [b0; b1; b2; b3; b4], s')
    /\ 0 < Spec.quality (int_of_byte b0)
    /\ 0 < Spec.distance_raw (int_of_byte b3) (int_of_byte b4)
    /\ smp = Plot2D.mkSample (frame_angle b1 b2) (frame_distance b3 b4)
               (Spec.quality (int_of_byte b0))
               (Spec.is_new_scan (int_of_byte b0)).
Proof.
  intros Hturn.
  destruct (serial_read_returns 5 s) as (data & s1 & Hread).
  destruct (len_is data 5) eqn:Hlen.
  - apply len_is_5_inv in Hlen as (b0 & b1 & b2 & b3 & b4 & ->).
    rewrite (read_scan_turn_2d _ _ _ _ _ _ _ Hread) in Hturn.
    exists b0, b1, b2, b3, b4.
    destruct (Spec.quality (int_of_byte b0) >? 0) eqn:Hq; [|discriminate].
    destruct (0 <? Spec.distance_raw (int_of_byte b3) (int_of_byte b4)) eqn:Hd;
      [|discriminate].
    cbn [andb] in Hturn. injection Hturn as <- <-.
    apply Z.gtb_lt in Hq. apply Z.ltb_lt in Hd. now rewrite Hread.
  - rewrite (read_scan_turn_2d_other _ _ _ Hread Hlen) in Hturn. discriminate.
Qed.

Lemma Qdiv_pos_zero (n : Z) (d : positive) :
  inject_Z n / inject_Z (Zpos d) == 0 -> n = 0.
Proof.
  unfold Qeq, Qdiv, Qmult, Qinv, inject_Z; cbn. lia.
Qed.

(** * The claims *)

(** C1. For every 5-byte scan frame [[b0, b1, b2, b3, b4]] both copies of the
    decoder compute quality [b0 >> 2], the 2-D copy computes the new-scan
    flag [(b0 & 0x01) == 1], and both compute a float angle that is exactly
    [(((b2 << 8) | b1) >> 1) / 64] degrees and a float distance that is
    exactly [((b4 << 8) | b3) / 4] millimetres. *)
Theorem scan_frame_fields (b0 b1 b2 b3 b4 : byte) (s : Serial) :
  exists angle distance : PyFloat.float,
    Plot2D.parse_frame [b0; b1; b2; b3; b4] s
    = (Return (Spec.quality (int_of_byte b0),
               Spec.is_new_scan (int_of_byte b0), angle, distance), s)
    /\ Plot3D.parse_frame [b0; b1; b2; b3; b4] s
       = (Return (Spec.quality (int_of_byte b0), angle, distance), s)
    /\ PyFloat.is_exactly angle
         (Spec.angle_degrees (int_of_byte b1) (int_of_byte b2))
    /\ PyFloat.is_exactly distance
         (Spec.distance_mm (int_of_byte b3) (int_of_byte b4)).
Proof.
  eexists _, _. split; [apply parse_frame_2d|]. split; [apply parse_frame_3d|].
  split.
  - apply angle_scaling, angle_raw_range.
  - apply distance_scaling, distance_raw_range.
Qed.

(** C2. A turn of the decoder that reads a 5-byte frame whose quality is 0
    or whose distance is 0 returns normally and yields no sample, in both
    copies of the driver. *)
Theorem zero_quality_or_distance_dropped
    (b0 b1 b2 b3 b4 : byte) (s s' : Serial) :
  serial_read 5 s = (Return [b0; b1; b2; b3; b4], s') ->
  Spec.quality (int_of_byte b0) = 0
  \/ Spec.distance_mm (int_of_byte b3) (int_of_byte b4) == 0 ->
  Plot2D.read_scan_turn s = (Return None, s')
  /\ Plot3D.read_scan_turn s = (Return None, s').
Proof.
  intros Hread Hzero.
  rewrite (read_scan_turn_2d _ _ _ _ _ _ _ Hread).
  rewrite (read_scan_turn_3d _ _ _ _ _ _ _ Hread).
  assert (Hcond : (Spec.quality (int_of_byte b0) >? 0)
                  && (0 <? Spec.distance_raw (int_of_byte b3) (int_of_byte b4))
                  = false).
  { destruct Hzero as [Hq|Hd].
    - rewrite Hq. reflexivity.
    - apply (Qdiv_pos_zero _ 4) in Hd. rewrite Hd. apply andb_false_r. }
  rewrite Hcond. split; reflexivity.
Qed.

(** The frame [[0x01, 0x00, 0x20, 0xE8, 0x03]] (quality 0) yields no
    sample. *)
Lemma zero_quality_or_distance_dropped_witness :
  serial_read 5 (mkSerial [[x01; x00; x20; xe8; x03]] [])
  = (Return [x01; x00; x20; xe8; x03], mkSerial [[]] [])
  /\ Spec.quality (int_of_byte x01) = 0
  /\ Plot2D.read_scan_turn (mkSerial [[x01; x00; x20; xe8; x03]] [])
     = (Return None, mkSerial [[]] [])
  /\ Plot3D.read_scan_turn (mkSerial [[x01; x00; x20; xe8; x03]] [])
     = (Return None, mkSerial [[]] []).
Proof.
  split; [reflexivity|]. split; [reflexivity|].
  apply (zero_quality_or_distance_dropped x01 x00 x20 xe8 x03).
  - reflexivity.
  - left. reflexivity.
Defined.

(** C3, as amended.  The generator fed the one frame
    [[0x05, 0x40, 0x20, 0xE8, 0x03]] yields exactly one sample, however long
    it runs: quality 1, angle 64.5 degrees (raw angle
    [((0x20 << 8) | 0x40) >> 1 = 0x2040 >> 1 = 4128]), distance 250.0 mm,
    start flag set. *)
Theorem concrete_frame_one_sample (n : nat) (t : bytes) :
  exists smp : Plot2D.Sample,
    Plot2D.read_scan_data (S n) (mkSerial [[x05; x40; x20; xe8; x03]] t)
    = (Return [smp], mkSerial (match n with O => [[]] | S _ => [] end) t)
    /\ Plot2D.quality smp = 1
    /\ PyFloat.is_exactly (Plot2D.angle smp) 64.5
    /\ PyFloat.is_exactly (Plot2D.distance smp) 250
    /\ Plot2D.start_flag smp = true.
Proof.
  eexists. split.
  - cbn [Plot2D.read_scan_data]. unfold bind at 1.
    rewrite (read_scan_turn_2d x05 x40 x20 xe8 x03 _ (mkSerial [[]] t))
      by reflexivity.
    cbv iota beta. unfold bind. rewrite read_scan_data_burst_end.
    reflexivity.
  - repeat split; vm_compute; reflexivity.
Qed.

(** C3 as stated fails: the angle of the sample decoded from
    [[0x05, 0x40, 0x20, 0xE8, 0x03]] is 64.5 degrees, not 32.25. *)
Lemma concrete_frame_angle_not_32_25 :
  exists smp : Plot2D.Sample,
    Plot2D.read_scan_data 1 (mkSerial [[x05; x40; x20; xe8; x03]] [])
    = (Return [smp], mkSerial [[]] [])
    /\ PyFloat.is_exactly (Plot2D.angle smp) 64.5
    /\ ~ PyFloat.is_exactly (Plot2D.angle smp) 32.25.
Proof.
  eexists. split; [reflexivity|]. split.
  - vm_compute. reflexivity.
  - vm_compute. discriminate.
Qed.

(** C4 as stated fails: the frame [[0x04, 0xFF, 0xFF, 0x01, 0x00]] yields a
    sample whose angle is 32767/64 = 511.984375 degrees, which is not below
    360. *)
Lemma angle_not_below_360 :
  exists smp : Plot2D.Sample,
    Plot2D.read_scan_turn (mkSerial [[x04; xff; xff; x01; x00]] [])
    = (Return (Some smp), mkSerial [[]] [])
    /\ PyFloat.is_exactly (Plot2D.angle smp) (32767 # 64)
    /\ ~ (32767 # 64 < 360)%Q.
Proof.
  eexists. split; [reflexivity|]. split.
  - vm_compute. reflexivity.
  - vm_compute. discriminate.
Qed.

(** C4, as amended.  Every sample the decoder yields, from any state of the
    port, has a finite angle in [0, 512) degrees (a 15-bit count of 1/64
    degree), a finite distance in (0, 16384) mm (a 16-bit count of 1/4 mm,
    never zero) and a quality in [1, 63]. *)
Theorem yielded_sample_ranges (s s' : Serial) (smp : Plot2D.Sample) :
  Plot2D.read_scan_turn s = (Return (Some smp), s') ->
  exists a d : Q,
    PyFloat.is_exactly (Plot2D.angle smp) a
    /\ PyFloat.is_exactly (Plot2D.distance smp) d
    /\ (0 <= a)%Q /\ (a < 512)%Q
    /\ (0 < d)%Q /\ (d < 16384)%Q
    /\ 1 <= Plot2D.quality smp <= 63.
Proof.
  intros Hturn.
  apply read_scan_turn_yield_inv in Hturn
    as (b0 & b1 & b2 & b3 & b4 & _ & Hq & Hd & ->).
  pose proof (angle_raw_range b1 b2) as Ha.
  pose proof (distance_raw_range b3 b4) as Hdr.
  pose proof (quality_range b0) as Hqr.
  exists (Spec.angle_degrees (int_of_byte b1) (int_of_byte b2)),
         (Spec.distance_mm (int_of_byte b3) (int_of_byte b4)).
  cbn [Plot2D.angle Plot2D.distance Plot2D.quality].
  split; [apply angle_scaling, Ha|]. split; [apply distance_scaling, Hdr|].
  unfold Spec.angle_degrees, Spec.distance_mm.
  revert Hq Hd Ha Hdr Hqr.
  generalize (Spec.angle_raw (int_of_byte b1) (int_of_byte b2)) as ra.
  generalize (Spec.distance_raw (int_of_byte b3) (int_of_byte b4)) as rd.
  generalize (Spec.quality (int_of_byte b0)) as q.
  intros q rd ra Hq Hd Ha Hdr Hqr.
  unfold Qle, Qlt, Qdiv, Qmult, Qinv, inject_Z; cbn.
  repeat split; lia.
Qed.

Lemma yielded_sample_ranges_witness :
  let smp :=
    Plot2D.mkSample
      (PyFloat.truediv (PyFloat.of_int 32767) PyFloat.lit_64_0)
      (PyFloat.truediv (PyFloat.of_int 1) PyFloat.lit_4_0) 1 false in
  Plot2D.read_scan_turn (mkSerial [[x04; xff; xff; x01; x00]] [])
  = (Return (Some smp), mkSerial [[]] [])
  /\ exists a d : Q,
       PyFloat.is_exactly (Plot2D.angle smp) a
       /\ PyFloat.is_exactly (Plot2D.distance smp) d
       /\ (0 <= a)%Q /\ (a < 512)%Q
       /\ (0 < d)%Q /\ (d < 16384)%Q
       /\ 1 <= Plot2D.quality smp <= 63.
Proof.
  cbv zeta. split; [reflexivity|].
  apply (yielded_sample_ranges
           (mkSerial [[x04; xff; xff; x01; x00]] []) (mkSerial [[]] [])).
  reflexivity.
Defined.

Lemma int_of_byte_inj (a b : byte) : int_of_byte a = int_of_byte b -> a = b.
Proof.
  unfold int_of_byte. intros H. apply N2Z.inj in H.
  pose proof (Byte.of_to_N a) as Ha. rewrite H, Byte.of_to_N in Ha.
  congruence.
Qed.

Lemma int_of_byte_eqb (a b : byte) :
  (int_of_byte a =? int_of_byte b) = true <-> a = b.
Proof.
  rewrite Z.eqb_eq. split; [apply int_of_byte_inj | congruence].
Qed.

(** C5. When the descriptor that answers the Scan command does not start
    with [0xA5, 0x5A], [start_scan] raises its "failed to start scan"
    exception (the specification's [UnexpectedSyncBytes]); the session that
    starts the scan and then pulls samples raises the same exception, yields
    no sample and reads nothing beyond the descriptor.  Both copies of the
    driver. *)
Theorem bad_scan_descriptor_fails
    (d0 d1 d2 d3 d4 d5 d6 : byte) (more : bytes) (later : list bytes)
    (t : bytes) (n : nat) :
  (d0, d1) <> (xa5, x5a) ->
  let s := mkSerial ((d0 :: d1 :: d2 :: d3 :: d4 :: d5 :: d6 :: more) :: later) t in
  let s' := mkSerial (more :: later) (t ++ [xa5; x20]) in
  Plot2D.start_scan s = (Raise (Exception "Failed to start scan"), s')
  /\ Plot2D.scan_session n s = (Raise (Exception "Failed to start scan"), s')
  /\ Plot3D.start_scan s = (Raise (Exception "スキャン開始に失敗"), s')
  /\ Plot3D.scan_session n s = (Raise (Exception "スキャン開始に失敗"), s').
Proof.
  intros Hbad s s'.
  assert (Hcheck : (if negb (int_of_byte d0 =? 0xA5)
                    then true else negb (int_of_byte d1 =? 0x5A)) = true).
  { destruct (int_of_byte d0 =? 0xA5) eqn:H0; [|reflexivity].
    destruct (int_of_byte d1 =? 0x5A) eqn:H1; [|reflexivity].
    apply (int_of_byte_eqb d0 xa5) in H0. apply (int_of_byte_eqb d1 x5a) in H1.
    congruence. }
  assert (H2 : Plot2D.start_scan s = (Raise (Exception "Failed to start scan"), s')).
  { unfold Plot2D.start_scan, bind, getitem, ret, raise; cbn.
    change Plot2D.SYNC_BYTE with 0xA5. change Plot2D.SYNC_BYTE2 with 0x5A.
    destruct (negb (int_of_byte d0 =? 0xA5)); cbn in Hcheck |- *;
      [reflexivity | now rewrite Hcheck]. }
  assert (H3 : Plot3D.start_scan s = (Raise (Exception "スキャン開始に失敗"), s')).
  { unfold Plot3D.start_scan, bind, getitem, ret, raise; cbn.
    change Plot3D.SYNC_BYTE with 0xA5. change Plot3D.SYNC_BYTE2 with 0x5A.
    destruct (negb (int_of_byte d0 =? 0xA5)); cbn in Hcheck |- *;
      [reflexivity | now rewrite Hcheck]. }
  repeat split; try assumption.
  - unfold Plot2D.scan_session, bind. now rewrite H2.
  - unfold Plot3D.scan_session, bind. now rewrite H3.
Qed.

Lemma bad_scan_descriptor_fails_witness :
  (xa5, x5b) <> (xa5, x5a)
  /\ Plot2D.scan_session 3
       (mkSerial [[xa5; x5b; x05; x00; x00; x40; x81;
                   x05; x40; x20; xe8; x03]] [])
     = (Raise (Exception "Failed to start scan"),
        mkSerial [[x05; x40; x20; xe8; x03]] [xa5; x20]).
Proof.
  split; [discriminate|].
  apply (bad_scan_descriptor_fails xa5 x5b x05 x00 x00 x40 x81
           [x05; x40; x20; xe8; x03] [] [] 3).
  discriminate.
Defined.

(** ** Replies to GetInfo and GetHealth *)

Lemma descriptor_then_short_payload
    (burst : bytes) (later : list bytes) (t : bytes) (len : nat) :
  (7 <= List.length burst < 7 + len)%nat ->
  serial_read 7 (mkSerial (burst :: later) t)
  = (Return (firstn 7 burst), mkSerial (skipn 7 burst :: later) t)
  /\ len_is (firstn 7 burst) 7 = true
  /\ serial_read len (mkSerial (skipn 7 burst :: later) t)
     = (Return (skipn 7 burst), mkSerial later t)
  /\ len_is (skipn 7 burst) len = false.
Proof.
  intros H. split; [apply serial_read_full; lia|].
  split; [unfold len_is; rewrite length_firstn; apply Nat.eqb_eq; lia|].
  split; [apply serial_read_short; rewrite length_skipn; lia|].
  unfold len_is; rewrite length_skipn; apply Nat.eqb_neq; lia.
Qed.

(** C6 as stated fails: with a complete descriptor and only 19 payload
    bytes [get_info] returns [None], and with only 2 payload bytes
    [get_health] returns [None]; neither raises. *)
Lemma short_payload_not_raised :
  let info_port :=
    mkSerial [[xa5; x5a; x14; x00; x00; x00; x04;
               x12; x05; x01; x00; x00; x00; x00; x00; x00; x00;
               x00; x00; x00; x00; x00; x00; x00; x00; x00]] [] in
  let health_port :=
    mkSerial [[xa5; x5a; x03; x00; x00; x00; x06; x00; x00]] [] in
  fst (Plot2D.get_info info_port) = Return None
  /\ fst (Plot2D.get_health health_port) = Return None
  /\ ~ (exists e, fst (Plot2D.get_info info_port) = Raise e)
  /\ ~ (exists e, fst (Plot2D.get_health health_port) = Raise e).
Proof.
  cbv zeta. repeat split; try reflexivity.
  - intros [e H]. discriminate H.
  - intros [e H]. discriminate H.
Qed.

(** C6, as amended.  When the descriptor arrives in full and fewer than 20
    payload bytes follow it before the timeout, [get_info] returns [None]
    and raises nothing; likewise [get_health] with fewer than 3 payload
    bytes.  The short payload is consumed and nothing is decoded from it. *)
Theorem short_payload_returns_none
    (burst : bytes) (later : list bytes) (t : bytes) :
  ((7 <= List.length burst < 7 + 20)%nat ->
   Plot2D.get_info (mkSerial (burst :: later) t)
   = (Return None, mkSerial later (t ++ [xa5; x50]))
   /\ Plot3D.get_info (mkSerial (burst :: later) t)
      = (Return None, mkSerial later (t ++ [xa5; x50])))
  /\ ((7 <= List.length burst < 7 + 3)%nat ->
      Plot2D.get_health (mkSerial (burst :: later) t)
      = (Return None, mkSerial later (t ++ [xa5; x52]))).
Proof.
  split; intros H.
  - destruct (descriptor_then_short_payload burst later (t ++ [xa5; x50]) 20 H)
      as (Hd & Hdl & Hp & Hpl).
    split.
    + unfold Plot2D.get_info, Plot2D._read_descriptor, bind; cbn [fst snd].
      change (Plot2D._send_command Plot2D.GET_INFO (mkSerial (burst :: later) t))
        with (Return tt, mkSerial (burst :: later) (t ++ [xa5; x50])).
      cbv iota beta. change Plot2D.DESCRIPTOR_LEN with 7%nat.
      change Plot2D.INFO_LEN with 20%nat.
      rewrite Hd, Hdl. cbn [negb]. unfold ret at 1. rewrite Hp, Hpl.
      reflexivity.
    + unfold Plot3D.get_info, Plot3D._read_descriptor, bind; cbn [fst snd].
      change (Plot3D._send_command Plot3D.GET_INFO (mkSerial (burst :: later) t))
        with (Return tt, mkSerial (burst :: later) (t ++ [xa5; x50])).
      cbv iota beta. change Plot3D.DESCRIPTOR_LEN with 7%nat.
      change Plot3D.INFO_LEN with 20%nat.
      rewrite Hd, Hdl. cbn [negb]. unfold ret at 1. rewrite Hp, Hpl.
      reflexivity.
  - destruct (descriptor_then_short_payload burst later (t ++ [xa5; x52]) 3 H)
      as (Hd & Hdl & Hp & Hpl).
    unfold Plot2D.get_health, Plot2D._read_descriptor, bind; cbn [fst snd].
    change (Plot2D._send_command Plot2D.GET_HEALTH (mkSerial (burst :: later) t))
      with (Return tt, mkSerial (burst :: later) (t ++ [xa5; x52])).
    cbv iota beta. change Plot2D.DESCRIPTOR_LEN with 7%nat.
    change Plot2D.HEALTH_LEN with 3%nat.
    rewrite Hd, Hdl. cbn [negb]. unfold ret at 1. rewrite Hp, Hpl.
    reflexivity.
Qed.

Lemma short_payload_returns_none_witness :
  (7 <= 9 < 7 + 20)%nat
  /\ Plot2D.get_info
       (mkSerial [[xa5; x5a; x14; x00; x00; x00; x04; x12; x05]] [])
     = (Return None, mkSerial [] [xa5; x50]).
Proof.
  split; [lia|].
  apply (short_payload_returns_none
           [xa5; x5a; x14; x00; x00; x00; x04; x12; x05] [] []).
  cbn. lia.
Defined.

(** C7. A frame with a positive quality and a positive raw distance always
    decodes to the same sample, whatever the state of the port it is read
    from, and the decoding of the angle and of the distance can be undone:
    the float product [angle * 64.0] is [float(angle_raw)], which is exactly
    the integer [angle_raw], and [distance * 4.0] is [float(distance_raw)],
    exactly [distance_raw]. *)
Theorem decoding_deterministic_and_reversible
    (b0 b1 b2 b3 b4 : byte) (s1 s1' s2 s2' : Serial) :
  serial_read 5 s1 = (Return [b0; b1; b2; b3; b4], s1') ->
  serial_read 5 s2 = (Return [b0; b1; b2; b3; b4], s2') ->
  0 < Spec.quality (int_of_byte b0) ->
  0 < Spec.distance_raw (int_of_byte b3) (int_of_byte b4) ->
  exists smp : Plot2D.Sample,
    Plot2D.read_scan_turn s1 = (Return (Some smp), s1')
    /\ Plot2D.read_scan_turn s2 = (Return (Some smp), s2')
    /\ PyFloat.mul (Plot2D.angle smp) PyFloat.lit_64_0
       = PyFloat.of_int (Spec.angle_raw (int_of_byte b1) (int_of_byte b2))
    /\ PyFloat.is_exactly (PyFloat.mul (Plot2D.angle smp) PyFloat.lit_64_0)
         (inject_Z (Spec.angle_raw (int_of_byte b1) (int_of_byte b2)))
    /\ PyFloat.mul (Plot2D.distance smp) PyFloat.lit_4_0
       = PyFloat.of_int (Spec.distance_raw (int_of_byte b3) (int_of_byte b4))
    /\ PyFloat.is_exactly (PyFloat.mul (Plot2D.distance smp) PyFloat.lit_4_0)
         (inject_Z (Spec.distance_raw (int_of_byte b3) (int_of_byte b4))).
Proof.
  intros H1 H2 Hq Hd.
  rewrite (read_scan_turn_2d _ _ _ _ _ _ _ H1).
  rewrite (read_scan_turn_2d _ _ _ _ _ _ _ H2).
  apply Z.gtb_lt in Hq. apply Z.ltb_lt in Hd. rewrite Hq, Hd. cbn [andb].
  eexists. split; [reflexivity|]. split; [reflexivity|].
  cbn [Plot2D.angle Plot2D.distance]. unfold frame_angle, frame_distance.
  destruct (angle_scaling _ (angle_raw_range b1 b2)) as (Ha1 & _ & Ha3 & _).
  destruct (distance_scaling _ (distance_raw_range b3 b4)) as (Hd1 & _ & Hd3 & _).
  rewrite Ha3, Hd3. repeat split; assumption.
Qed.

Lemma decoding_deterministic_and_reversible_witness :
  0 < Spec.quality (int_of_byte x05)
  /\ 0 < Spec.distance_raw (int_of_byte xe8) (int_of_byte x03)
  /\ exists smp : Plot2D.Sample,
       Plot2D.read_scan_turn (mkSerial [[x05; x40; x20; xe8; x03]] [])
       = (Return (Some smp), mkSerial [[]] [])
       /\ Plot2D.read_scan_turn
            (mkSerial [[x05; x40; x20; xe8; x03; x00]; []] [xa5])
          = (Return (Some smp), mkSerial [[x00]; []] [xa5])
       /\ PyFloat.mul (Plot2D.angle smp) PyFloat.lit_64_0 = PyFloat.of_int 4128
       /\ PyFloat.is_exactly
            (PyFloat.mul (Plot2D.angle smp) PyFloat.lit_64_0) 4128
       /\ PyFloat.mul (Plot2D.distance smp) PyFloat.lit_4_0
          = PyFloat.of_int 1000
       /\ PyFloat.is_exactly
            (PyFloat.mul (Plot2D.distance smp) PyFloat.lit_4_0) 1000.
Proof.
  split; [reflexivity|]. split; [reflexivity|].
  apply (decoding_deterministic_and_reversible x05 x40 x20 xe8 x03);
    reflexivity.
Defined.

(** C8. The GetInfo payload 18, 5, 1, 0 followed by sixteen zero bytes,
    after any 7-byte descriptor, decodes to model 18, firmware "1.5" (major
    1 from the third byte, minor 5 from the second), hardware 0 and the
    serial number as 32 characters '0'.  Both copies of the driver. *)
Theorem get_info_concrete
    (d0 d1 d2 d3 d4 d5 d6 : byte) (later : list bytes) (t : bytes) :
  let payload :=
    [x12; x05; x01; x00; x00; x00; x00; x00; x00; x00;
     x00; x00; x00; x00; x00; x00; x00; x00; x00; x00] in
  let s :=
    mkSerial ((d0 :: d1 :: d2 :: d3 :: d4 :: d5 :: d6 :: payload) :: later) t in
  let s' := mkSerial ([] :: later) (t ++ [xa5; x50]) in
  Plot2D.get_info s
  = (Return (Some (Plot2D.mkInfo 18 "1.5" 0 "00000000000000000000000000000000")), s')
  /\ Plot3D.get_info s
     = (Return (Some (Plot3D.mkInfo 18 "1.5" 0 "00000000000000000000000000000000")), s').
Proof. split; reflexivity. Qed.

(** C9. For each of the five commands the driver packs the request frame
    [[0xA5, opcode]], with opcodes GetInfo 0x50, GetHealth 0x52, Stop 0x25,
    Reset 0x40 and Scan 0x20; packing never raises and leaves the port as it
    is, and sending writes these two bytes and nothing else.  In particular
    Scan is [[0xA5, 0x20]] and Stop is [[0xA5, 0x25]]. *)
Theorem command_frames (c : Spec.Command) (s : Serial) :
  command_constant c = Spec.opcode c
  /\ map int_of_byte (Spec.encode c) = [0xA5; Spec.opcode c]
  /\ struct_pack_BB Plot2D.SYNC_BYTE (command_constant c) s
     = (Return (Spec.encode c), s)
  /\ Plot2D._send_command (command_constant c) s
     = (Return tt, mkSerial (rx s) (tx s ++ Spec.encode c))
  /\ Plot3D._send_command (command_constant c) s
     = (Return tt, mkSerial (rx s) (tx s ++ Spec.encode c))
  /\ Spec.encode Spec.Scan = [xa5; x20]
  /\ Spec.encode Spec.Stop = [xa5; x25].
Proof. destruct c; repeat split; reflexivity. Qed.

(** C10. On every state of the port a turn of the 3-D decoder does what a
    turn of the 2-D decoder does: it consumes the same bytes, yields a
    sample exactly when the 2-D one does, and the sample has the same angle,
    distance and quality (only the start flag is absent).  Hence the two
    generators yield the same sequence of samples up to the start flag. *)
Theorem decoders_agree (n : nat) (s : Serial) :
  Plot3D.read_scan_turn s
  = map_result (option_map forget_start_flag) (Plot2D.read_scan_turn s)
  /\ Plot3D.read_scan_data n s
     = map_result (map forget_start_flag) (Plot2D.read_scan_data n s).
Proof.
  assert (Hturn : forall s0, Plot3D.read_scan_turn s0
          = map_result (option_map forget_start_flag) (Plot2D.read_scan_turn s0)).
  { intros s0. destruct (serial_read_returns 5 s0) as (data & s1 & Hread).
    destruct (len_is data 5) eqn:Hlen.
    - apply len_is_5_inv in Hlen as (b0 & b1 & b2 & b3 & b4 & ->).
      rewrite (read_scan_turn_2d _ _ _ _ _ _ _ Hread).
      rewrite (read_scan_turn_3d _ _ _ _ _ _ _ Hread).
      now destruct (_ && _).
    - rewrite (read_scan_turn_2d_other _ _ _ Hread Hlen).
      now rewrite (read_scan_turn_3d_other _ _ _ Hread Hlen). }
  split; [apply Hturn|].
  revert s. induction n as [|n IH]; intros s; [reflexivity|].
  cbn [Plot3D.read_scan_data Plot2D.read_scan_data]. unfold bind at 1 3.
  rewrite Hturn.
  destruct (Plot2D.read_scan_turn s) as [[y|e] s1]; cbn [map_result];
    [|reflexivity].
  unfold bind. rewrite IH.
  destruct (Plot2D.read_scan_data n s1) as [[l|e] s2]; cbn [map_result];
    [|reflexivity].
  now destruct y.
Qed.


(** * Further properties of the driver *)

(** ** Descriptors *)

(** A read depends on what the device delivers, not on what was written. *)
Lemma serial_read_any_tx (n : nat) (s s1 : Serial) (data t' : bytes) :
  serial_read n s = (Return data, s1) ->
  serial_read n (mkSerial (rx s) t') = (Return data, mkSerial (rx s1) t').
Proof.
  unfold serial_read; cbn [rx tx].
  destruct (rx s) as [|burst later] eqn:Hrx.
  - intros H; injection H as <- <-. now rewrite Hrx.
  - destruct (n <=? List.length burst)%nat; intros H; injection H as <- <-;
      reflexivity.
Qed.

Lemma serial_read_keeps_tx (n : nat) (s s1 : Serial) (data : bytes) :
  serial_read n s = (Return data, s1) -> tx s1 = tx s.
Proof.
  unfold serial_read. destruct (rx s) as [|burst later].
  - intros H; injection H as <- <-. reflexivity.
  - destruct (n <=? List.length burst)%nat; intros H; injection H as <- <-;
      reflexivity.
Qed.

Lemma serial_read_length (n : nat) (s s1 : Serial) (data : bytes) :
  serial_read n s = (Return data, s1) ->
  (List.length data <= n)%nat
  /\ (pending s1 + List.length data = pending s)%nat.
Proof.
  unfold serial_read, pending. destruct (rx s) as [|burst later] eqn:Hrx.
  - intros H; injection H as <- <-. rewrite Hrx. cbn. lia.
  - destruct (n <=? List.length burst)%nat eqn:Hn; intros H;
      injection H as <- <-; cbn [rx List.concat].
    + apply Nat.leb_le in Hn. rewrite !length_app, length_firstn, length_skipn.
      lia.
    + apply Nat.leb_gt in Hn. rewrite length_app. lia.
Qed.

Lemma send_command_2d (c : Spec.Command) (s : Serial) :
  Plot2D._send_command (command_constant c) s
  = (Return tt, mkSerial (rx s) (tx s ++ Spec.encode c)).
Proof. destruct c; reflexivity. Qed.

Lemma send_command_3d (c : Spec.Command) (s : Serial) :
  Plot3D._send_command (command_constant c) s
  = (Return tt, mkSerial (rx s) (tx s ++ Spec.encode c)).
Proof. destruct c; reflexivity. Qed.

Lemma read_descriptor_2d (s s1 : Serial) (data : bytes) :
  serial_read 7 s = (Return data, s1) ->
  Plot2D._read_descriptor s
  = (if len_is data 7 then Return data
     else Raise (Exception "Failed to read descriptor"), s1).
Proof.
  intros H. unfold Plot2D._read_descriptor, bind.
  change Plot2D.DESCRIPTOR_LEN with 7%nat. rewrite H.
  now destruct (len_is data 7).
Qed.

Lemma read_descriptor_3d (s s1 : Serial) (data : bytes) :
  serial_read 7 s = (Return data, s1) ->
  Plot3D._read_descriptor s
  = (if len_is data 7 then Return data
     else Raise (Exception "ディスクリプタの読み取りに失敗"), s1).
Proof.
  intros H. unfold Plot3D._read_descriptor, bind.
  change Plot3D.DESCRIPTOR_LEN with 7%nat. rewrite H.
  now destruct (len_is data 7).
Qed.

(** X1. When the 7-byte read of the descriptor comes back short (a silent
    device, or a burst that ends early), [get_info], [get_health] and
    [start_scan] raise the "failed to read descriptor" exception, in both
    copies of the driver.  The command has been sent by then and the bytes
    of the short read are consumed. *)
Theorem short_descriptor_raises (s s1 : Serial) (data : bytes) :
  serial_read 7 s = (Return data, s1) ->
  List.length data <> 7%nat ->
  let after (c : Spec.Command) := mkSerial (rx s1) (tx s ++ Spec.encode c) in
  Plot2D.get_info s
  = (Raise (Exception "Failed to read descriptor"), after Spec.GetInfo)
  /\ Plot2D.get_health s
     = (Raise (Exception "Failed to read descriptor"), after Spec.GetHealth)
  /\ Plot2D.start_scan s
     = (Raise (Exception "Failed to read descriptor"), after Spec.Scan)
  /\ Plot3D.get_info s
     = (Raise (Exception "ディスクリプタの読み取りに失敗"), after Spec.GetInfo)
  /\ Plot3D.start_scan s
     = (Raise (Exception "ディスクリプタの読み取りに失敗"), after Spec.Scan).
Proof.
  intros Hread Hlen after.
  assert (Hl : len_is data 7 = false) by (apply Nat.eqb_neq, Hlen).
  assert (H2 : forall c, Plot2D._read_descriptor
                 (mkSerial (rx s) (tx s ++ Spec.encode c))
               = (Raise (Exception "Failed to read descriptor"), after c)).
  { intros c. rewrite (read_descriptor_2d _ _ _ (serial_read_any_tx _ _ _ _ _ Hread)).
    now rewrite Hl. }
  assert (H3 : forall c, Plot3D._read_descriptor
                 (mkSerial (rx s) (tx s ++ Spec.encode c))
               = (Raise (Exception "ディスクリプタの読み取りに失敗"), after c)).
  { intros c. rewrite (read_descriptor_3d _ _ _ (serial_read_any_tx _ _ _ _ _ Hread)).
    now rewrite Hl. }
  repeat split.
  - unfold Plot2D.get_info, bind.
    rewrite (send_command_2d Spec.GetInfo). now rewrite H2.
  - unfold Plot2D.get_health, bind.
    rewrite (send_command_2d Spec.GetHealth). now rewrite H2.
  - unfold Plot2D.start_scan, bind.
    rewrite (send_command_2d Spec.Scan). now rewrite H2.
  - unfold Plot3D.get_info, bind.
    rewrite (send_command_3d Spec.GetInfo). now rewrite H3.
  - unfold Plot3D.start_scan, bind.
    rewrite (send_command_3d Spec.Scan). now rewrite H3.
Qed.

Lemma short_descriptor_raises_witness :
  serial_read 7 (mkSerial [[xa5; x5a; x14]; [x00; x00; x00; x04]] [])
  = (Return [xa5; x5a; x14], mkSerial [[x00; x00; x00; x04]] [])
  /\ List.length [xa5; x5a; x14] <> 7%nat
  /\ Plot2D.get_info (mkSerial [[xa5; x5a; x14]; [x00; x00; x00; x04]] [])
     = (Raise (Exception "Failed to read descriptor"),
        mkSerial [[x00; x00; x00; x04]] [xa5; x50]).
Proof.
  split; [reflexivity|]. split; [discriminate|].
  apply (short_descriptor_raises
           (mkSerial [[xa5; x5a; x14]; [x00; x00; x00; x04]] [])
           (mkSerial [[x00; x00; x00; x04]] []) [xa5; x5a; x14]).
  - reflexivity.
  - discriminate.
Defined.

(** ** The shape of the three request methods *)

Lemma len_is_payload_20 (data : bytes) :
  len_is data 20
  = match data with
    | _ :: _ :: _ :: _ :: sn => len_is sn 16
    | _ => false
    end.
Proof. destruct data as [|p0 [|p1 [|p2 [|p3 sn]]]]; reflexivity. Qed.

Lemma len_is_payload_3 (data : bytes) :
  len_is data 3 = match data with [_; _; _] => true | _ => false end.
Proof. destruct data as [|p0 [|p1 [|p2 [|p3 sn]]]]; reflexivity. Qed.

Lemma get_info_2d_shape (s s1 s2 : Serial) (d data : bytes) :
  serial_read 7 s = (Return d, s1) ->
  serial_read 20 s1 = (Return data, s2) ->
  Plot2D.get_info s
  = if len_is d 7
    then (Return
            match data with
            | p0 :: p1 :: p2 :: p3 :: sn =>
                if len_is sn 16
                then Some (Plot2D.mkInfo (int_of_byte p0)
                             (str_of_int (int_of_byte p2) ++ "."
                              ++ str_of_int (int_of_byte p1))%string
                             (int_of_byte p3) (bytes_hex sn))
                else None
            | _ => None
            end,
          mkSerial (rx s2) (tx s ++ [xa5; x50]))
    else (Raise (Exception "Failed to read descriptor"),
          mkSerial (rx s1) (tx s ++ [xa5; x50])).
Proof.
  intros Hd Hp. unfold Plot2D.get_info. unfold bind at 1.
  rewrite (send_command_2d Spec.GetInfo). cbv iota beta. unfold bind at 1.
  rewrite (read_descriptor_2d _ _ _ (serial_read_any_tx _ _ _ _ _ Hd)).
  destruct (len_is d 7); [|reflexivity].
  unfold bind at 1. change Plot2D.INFO_LEN with 20%nat.
  rewrite (serial_read_any_tx _ _ _ _ (tx s ++ Spec.encode Spec.GetInfo) Hp).
  rewrite len_is_payload_20.
  destruct data as [|p0 [|p1 [|p2 [|p3 sn]]]]; try reflexivity.
  unfold bind, struct_unpack_BBBB16s.
  destruct (len_is sn 16); reflexivity.
Qed.

Lemma get_info_3d_shape (s s1 s2 : Serial) (d data : bytes) :
  serial_read 7 s = (Return d, s1) ->
  serial_read 20 s1 = (Return data, s2) ->
  Plot3D.get_info s
  = if len_is d 7
    then (Return
            match data with
            | p0 :: p1 :: p2 :: p3 :: sn =>
                if len_is sn 16
                then Some (Plot3D.mkInfo (int_of_byte p0)
                             (str_of_int (int_of_byte p2) ++ "."
                              ++ str_of_int (int_of_byte p1))%string
                             (int_of_byte p3) (bytes_hex sn))
                else None
            | _ => None
            end,
          mkSerial (rx s2) (tx s ++ [xa5; x50]))
    else (Raise (Exception "ディスクリプタの読み取りに失敗"),
          mkSerial (rx s1) (tx s ++ [xa5; x50])).
Proof.
  intros Hd Hp. unfold Plot3D.get_info. unfold bind at 1.
  rewrite (send_command_3d Spec.GetInfo). cbv iota beta. unfold bind at 1.
  rewrite (read_descriptor_3d _ _ _ (serial_read_any_tx _ _ _ _ _ Hd)).
  destruct (len_is d 7); [|reflexivity].
  unfold bind at 1. change Plot3D.INFO_LEN with 20%nat.
  rewrite (serial_read_any_tx _ _ _ _ (tx s ++ Spec.encode Spec.GetInfo) Hp).
  rewrite len_is_payload_20.
  destruct data as [|p0 [|p1 [|p2 [|p3 sn]]]]; try reflexivity.
  unfold bind, struct_unpack_BBBB16s.
  destruct (len_is sn 16); reflexivity.
Qed.

Lemma get_health_shape (s s1 s2 : Serial) (d data : bytes) :
  serial_read 7 s = (Return d, s1) ->
  serial_read 3 s1 = (Return data, s2) ->
  Plot2D.get_health s
  = if len_is d 7
    then (Return
            match data with
            | [p0; lo; hi] =>
                Some (Plot2D.mkHealth (int_of_byte p0)
                        (int_of_byte lo + 256 * int_of_byte hi))
            | _ => None
            end,
          mkSerial (rx s2) (tx s ++ [xa5; x52]))
    else (Raise (Exception "Failed to read descriptor"),
          mkSerial (rx s1) (tx s ++ [xa5; x52])).
Proof.
  intros Hd Hp. unfold Plot2D.get_health. unfold bind at 1.
  rewrite (send_command_2d Spec.GetHealth). cbv iota beta. unfold bind at 1.
  rewrite (read_descriptor_2d _ _ _ (serial_read_any_tx _ _ _ _ _ Hd)).
  destruct (len_is d 7); [|reflexivity].
  unfold bind at 1. change Plot2D.HEALTH_LEN with 3%nat.
  rewrite (serial_read_any_tx _ _ _ _ (tx s ++ Spec.encode Spec.GetHealth) Hp).
  rewrite len_is_payload_3.
  destruct data as [|p0 [|p1 [|p2 [|p3 sn]]]]; reflexivity.
Qed.


Lemma start_scan_2d_shape (s s1 : Serial) (d : bytes) :
  serial_read 7 s = (Return d, s1) ->
  Plot2D.start_scan s
  = (if len_is d 7
     then if scan_descriptor_ok d then Return tt
          else Raise (Exception "Failed to start scan")
     else Raise (Exception "Failed to read descriptor"),
     mkSerial (rx s1) (tx s ++ [xa5; x20])).
Proof.
  intros Hd. unfold Plot2D.start_scan. unfold bind at 1.
  rewrite (send_command_2d Spec.Scan). cbv iota beta. unfold bind at 1.
  rewrite (read_descriptor_2d _ _ _ (serial_read_any_tx _ _ _ _ _ Hd)).
  destruct (len_is d 7) eqn:Hl; [|reflexivity].
  destruct d as [|d0 [|d1 d]]; try discriminate.
  unfold bind, getitem, ret, raise; cbn [nth_error scan_descriptor_ok].
  change Plot2D.SYNC_BYTE with 0xA5. change Plot2D.SYNC_BYTE2 with 0x5A.
  destruct (int_of_byte d0 =? 0xA5); cbn [negb andb]; [|reflexivity].
  destruct (int_of_byte d1 =? 0x5A); reflexivity.
Qed.

Lemma start_scan_3d_shape (s s1 : Serial) (d : bytes) :
  serial_read 7 s = (Return d, s1) ->
  Plot3D.start_scan s
  = (if len_is d 7
     then if scan_descriptor_ok d then Return tt
          else Raise (Exception "スキャン開始に失敗")
     else Raise (Exception "ディスクリプタの読み取りに失敗"),
     mkSerial (rx s1) (tx s ++ [xa5; x20])).
Proof.
  intros Hd. unfold Plot3D.start_scan. unfold bind at 1.
  rewrite (send_command_3d Spec.Scan). cbv iota beta. unfold bind at 1.
  rewrite (read_descriptor_3d _ _ _ (serial_read_any_tx _ _ _ _ _ Hd)).
  destruct (len_is d 7) eqn:Hl; [|reflexivity].
  destruct d as [|d0 [|d1 d]]; try discriminate.
  unfold bind, getitem, ret, raise; cbn [nth_error scan_descriptor_ok].
  change Plot3D.SYNC_BYTE with 0xA5. change Plot3D.SYNC_BYTE2 with 0x5A.
  destruct (int_of_byte d0 =? 0xA5); cbn [negb andb]; [|reflexivity].
  destruct (int_of_byte d1 =? 0x5A); reflexivity.
Qed.

(** ** Replies decoded *)

Lemma hex_digit_inj (a b : N) :
  (a < 16)%N -> (b < 16)%N -> hex_digit a = hex_digit b -> a = b.
Proof.
  intros Ha Hb.
  assert (Hcases : forall n, (n < 16)%N ->
            In n [0; 1; 2; 3; 4; 5; 6; 7; 8; 9; 10; 11; 12; 13; 14; 15]%N).
  { intros n Hn. cbn.
    destruct n as [|p]; [now left|].
    do 4 (destruct p as [p|p|]; try lia); tauto. }
  pose proof (Hcases a Ha) as Ia. pose proof (Hcases b Hb) as Ib.
  cbn in Ia, Ib.
  repeat (destruct Ia as [<-|Ia]; [|]); try contradiction;
    repeat (destruct Ib as [<-|Ib]; [|]); try contradiction;
    intros H; try reflexivity; discriminate H.
Qed.

Lemma byte_hex_inj (a b : byte) :
  hex_digit (Byte.to_N a / 16) = hex_digit (Byte.to_N b / 16) ->
  hex_digit (Byte.to_N a mod 16) = hex_digit (Byte.to_N b mod 16) ->
  a = b.
Proof.
  intros Hhi Hlo.
  pose proof (Byte.to_N_bounded a) as Ba. pose proof (Byte.to_N_bounded b) as Bb.
  apply hex_digit_inj in Hhi;
    [|apply N.Div0.div_lt_upper_bound; lia|apply N.Div0.div_lt_upper_bound; lia].
  apply hex_digit_inj in Hlo; [|apply N.mod_lt; lia|apply N.mod_lt; lia].
  assert (Hn : Byte.to_N a = Byte.to_N b).
  { rewrite (N.div_mod (Byte.to_N a) 16), (N.div_mod (Byte.to_N b) 16) by lia.
    now rewrite Hhi, Hlo. }
  pose proof (Byte.of_to_N a) as Ha. rewrite Hn, Byte.of_to_N in Ha.
  congruence.
Qed.

Lemma bytes_hex_length (data : bytes) :
  String.length (bytes_hex data) = (2 * List.length data)%nat.
Proof.
  induction data as [|b rest IH]; [reflexivity|].
  cbn [bytes_hex String.length List.length]. rewrite IH. lia.
Qed.

(** X2. [bytes.hex()] as [get_info] uses it for the serial number loses
    nothing: two byte strings with the same rendering are the same, and the
    rendering has two characters per byte. *)
Theorem bytes_hex_injective (a b : bytes) :
  bytes_hex a = bytes_hex b ->
  a = b /\ String.length (bytes_hex a) = (2 * List.length a)%nat.
Proof.
  intros H. split; [|apply bytes_hex_length].
  revert b H. induction a as [|x a IH]; intros [|y b] H;
    try reflexivity; try discriminate.
  cbn [bytes_hex] in H. injection H as Hhi Hlo Hrest.
  f_equal; [now apply byte_hex_inj | now apply IH].
Qed.

Lemma bytes_hex_injective_witness :
  bytes_hex [x0a; xff] = bytes_hex [x0a; xff]
  /\ [x0a; xff] = [x0a; xff]
  /\ String.length (bytes_hex [x0a; xff]) = (2 * List.length [x0a; xff])%nat.
Proof.
  split; [reflexivity|].
  apply (bytes_hex_injective [x0a; xff] [x0a; xff]). reflexivity.
Defined.

(** X3. [get_info] decodes every complete reply: after any seven bytes of
    descriptor (their content is not looked at) a payload of 20 bytes gives
    model = byte 0, firmware = "<byte 2>.<byte 1>", hardware = byte 3 and
    the serial number as the 32 hexadecimal characters of bytes 4 to 19;
    the port is left after the 27 bytes read, with the request written.
    Both copies of the driver. *)
Theorem get_info_decodes
    (s s1 s2 : Serial) (d : bytes) (p0 p1 p2 p3 : byte) (sn : bytes) :
  serial_read 7 s = (Return d, s1) ->
  List.length d = 7%nat ->
  serial_read 20 s1 = (Return (p0 :: p1 :: p2 :: p3 :: sn), s2) ->
  List.length sn = 16%nat ->
  let fw :=
    (str_of_int (int_of_byte p2) ++ "." ++ str_of_int (int_of_byte p1))%string in
  Plot2D.get_info s
  = (Return (Some (Plot2D.mkInfo (int_of_byte p0) fw (int_of_byte p3)
                     (bytes_hex sn))),
     mkSerial (rx s2) (tx s ++ [xa5; x50]))
  /\ Plot3D.get_info s
     = (Return (Some (Plot3D.mkInfo (int_of_byte p0) fw (int_of_byte p3)
                        (bytes_hex sn))),
        mkSerial (rx s2) (tx s ++ [xa5; x50]))
  /\ String.length (bytes_hex sn) = 32%nat.
Proof.
  intros Hd Hdl Hp Hsn fw.
  assert (Hl7 : len_is d 7 = true) by (apply Nat.eqb_eq, Hdl).
  assert (Hl16 : len_is sn 16 = true) by (apply Nat.eqb_eq, Hsn).
  rewrite (get_info_2d_shape _ _ _ _ _ Hd Hp).
  rewrite (get_info_3d_shape _ _ _ _ _ Hd Hp).
  rewrite Hl7, Hl16. repeat split.
  rewrite bytes_hex_length, Hsn. reflexivity.
Qed.

Lemma get_info_decodes_witness :
  let s := mkSerial [[x00; x01; x02; x03; x04; x05; x06;
                      x18; x1d; x01; x07;
                      xde; xad; xbe; xef; x00; x11; x22; x33;
                      x44; x55; x66; x77; x88; x99; xaa; xbb; xcc]] [] in
  Plot2D.get_info s
  = (Return (Some (Plot2D.mkInfo 24 "1.29" 7
                     "deadbeef00112233445566778899aabb")),
     mkSerial [[xcc]] [xa5; x50]).
Proof.
  exact (proj1 (get_info_decodes
           (mkSerial [[x00; x01; x02; x03; x04; x05; x06;
                       x18; x1d; x01; x07;
                       xde; xad; xbe; xef; x00; x11; x22; x33;
                       x44; x55; x66; x77; x88; x99; xaa; xbb; xcc]] [])
           (mkSerial [[x18; x1d; x01; x07;
                       xde; xad; xbe; xef; x00; x11; x22; x33;
                       x44; x55; x66; x77; x88; x99; xaa; xbb; xcc]] [])
           (mkSerial [[xcc]] [])
           [x00; x01; x02; x03; x04; x05; x06] x18 x1d x01 x07
           [xde; xad; xbe; xef; x00; x11; x22; x33;
            x44; x55; x66; x77; x88; x99; xaa; xbb]
           eq_refl eq_refl eq_refl eq_refl)).
Defined.

(** X4. [get_health] decodes every complete reply: after any seven bytes
    of descriptor a payload of 3 bytes gives status = byte 0 and the error
    code as the little-endian 16-bit value of bytes 1 and 2, so
    [0 <= status <= 255] and [0 <= error_code <= 65535]. *)
Theorem get_health_decodes
    (s s1 s2 : Serial) (d : bytes) (p0 lo hi : byte) :
  serial_read 7 s = (Return d, s1) ->
  List.length d = 7%nat ->
  serial_read 3 s1 = (Return [p0; lo; hi], s2) ->
  exists h : Plot2D.Health,
    Plot2D.get_health s = (Return (Some h), mkSerial (rx s2) (tx s ++ [xa5; x52]))
    /\ Plot2D.status h = int_of_byte p0
    /\ Plot2D.error_code h = int_of_byte lo + 256 * int_of_byte hi
    /\ Plot2D.error_code h mod 256 = int_of_byte lo
    /\ Plot2D.error_code h / 256 = int_of_byte hi
    /\ 0 <= Plot2D.status h <= 255
    /\ 0 <= Plot2D.error_code h <= 65535.
Proof.
  intros Hd Hdl Hp.
  assert (Hl7 : len_is d 7 = true) by (apply Nat.eqb_eq, Hdl).
  rewrite (get_health_shape _ _ _ _ _ Hd Hp), Hl7.
  eexists. split; [reflexivity|]. cbn [Plot2D.status Plot2D.error_code].
  pose proof (int_of_byte_range p0). pose proof (int_of_byte_range lo).
  pose proof (int_of_byte_range hi).
  repeat split; try lia.
  - rewrite (Z.mul_comm 256), Z.mod_add by lia. apply Z.mod_small; lia.
  - rewrite (Z.mul_comm 256), Z.div_add by lia.
    rewrite Z.div_small by lia. lia.
Qed.

Lemma get_health_decodes_witness :
  exists h : Plot2D.Health,
    Plot2D.get_health
      (mkSerial [[xa5; x5a; x03; x00; x00; x00; x06; x02; x34; x12]] [])
    = (Return (Some h), mkSerial [[]] [xa5; x52])
    /\ Plot2D.status h = 2
    /\ Plot2D.error_code h = 0x1234.
Proof.
  destruct (get_health_decodes
              (mkSerial [[xa5; x5a; x03; x00; x00; x00; x06; x02; x34; x12]] [])
              (mkSerial [[x02; x34; x12]] []) (mkSerial [[]] [])
              [xa5; x5a; x03; x00; x00; x00; x06] x02 x34 x12
              eq_refl eq_refl eq_refl)
    as (h & H1 & H2 & H3 & _).
  exists h. repeat split; assumption.
Defined.

Lemma scan_descriptor_ok_inv (d : bytes) :
  len_is d 7 = true -> scan_descriptor_ok d = true ->
  exists d2 d3 d4 d5 d6, d = [xa5; x5a; d2; d3; d4; d5; d6].
Proof.
  intros Hl Hok.
  destruct d as [|d0 [|d1 [|d2 [|d3 [|d4 [|d5 [|d6 [|d7 d]]]]]]]];
    try discriminate.
  cbn [scan_descriptor_ok] in Hok. apply andb_prop in Hok as [H0 H1].
  apply (int_of_byte_eqb d0 xa5) in H0. apply (int_of_byte_eqb d1 x5a) in H1.
  subst. now eauto 6.
Qed.

(** X5. [start_scan] returns normally exactly when the 7-byte read of the
    descriptor is complete and starts with [0xA5, 0x5A]; the other five
    bytes are not looked at.  It then leaves the port right after the
    descriptor, with the Scan request written.  Both copies of the driver. *)
Theorem start_scan_succeeds_iff (s s' : Serial) :
  (Plot2D.start_scan s = (Return tt, s')
   <-> exists d2 d3 d4 d5 d6 s1,
         serial_read 7 s = (Return [xa5; x5a; d2; d3; d4; d5; d6], s1)
         /\ s' = mkSerial (rx s1) (tx s ++ [xa5; x20]))
  /\ (Plot3D.start_scan s = (Return tt, s')
      <-> exists d2 d3 d4 d5 d6 s1,
            serial_read 7 s = (Return [xa5; x5a; d2; d3; d4; d5; d6], s1)
            /\ s' = mkSerial (rx s1) (tx s ++ [xa5; x20])).
Proof.
  destruct (serial_read_returns 7 s) as (d & s1 & Hd).
  split; split.
  - rewrite (start_scan_2d_shape _ _ _ Hd).
    destruct (len_is d 7) eqn:Hl; [|discriminate].
    destruct (scan_descriptor_ok d) eqn:Hok; [|discriminate].
    intros H; injection H as <-.
    destruct (scan_descriptor_ok_inv d Hl Hok) as (d2 & d3 & d4 & d5 & d6 & ->).
    now exists d2, d3, d4, d5, d6, s1.
  - intros (d2 & d3 & d4 & d5 & d6 & s1' & Hr & ->).
    now rewrite (start_scan_2d_shape _ _ _ Hr).
  - rewrite (start_scan_3d_shape _ _ _ Hd).
    destruct (len_is d 7) eqn:Hl; [|discriminate].
    destruct (scan_descriptor_ok d) eqn:Hok; [|discriminate].
    intros H; injection H as <-.
    destruct (scan_descriptor_ok_inv d Hl Hok) as (d2 & d3 & d4 & d5 & d6 & ->).
    now exists d2, d3, d4, d5, d6, s1.
  - intros (d2 & d3 & d4 & d5 & d6 & s1' & Hr & ->).
    now rewrite (start_scan_3d_shape _ _ _ Hr).
Qed.

(** X6. The request methods raise nothing but their own exceptions, on
    every state of the port: [get_info] and [get_health] can only raise
    "failed to read descriptor", [start_scan] only that or "failed to start
    scan".  The indexing of the descriptor and the [struct.unpack] calls
    are always within bounds ([IndexError] and [struct.error] cannot
    occur).  Both copies of the driver. *)
Theorem request_exceptions (s s' : Serial) (e : exn) :
  (Plot2D.get_info s = (Raise e, s') \/ Plot2D.get_health s = (Raise e, s') ->
   e = Exception "Failed to read descriptor")
  /\ (Plot2D.start_scan s = (Raise e, s') ->
      e = Exception "Failed to read descriptor"
      \/ e = Exception "Failed to start scan")
  /\ (Plot3D.get_info s = (Raise e, s') ->
      e = Exception "ディスクリプタの読み取りに失敗")
  /\ (Plot3D.start_scan s = (Raise e, s') ->
      e = Exception "ディスクリプタの読み取りに失敗"
      \/ e = Exception "スキャン開始に失敗").
Proof.
  destruct (serial_read_returns 7 s) as (d & s1 & Hd).
  destruct (serial_read_returns 20 s1) as (pi & si & Hpi).
  destruct (serial_read_returns 3 s1) as (ph & sh & Hph).
  repeat split.
  - intros [H|H].
    + rewrite (get_info_2d_shape _ _ _ _ _ Hd Hpi) in H.
      destruct (len_is d 7); [discriminate|]. congruence.
    + rewrite (get_health_shape _ _ _ _ _ Hd Hph) in H.
      destruct (len_is d 7); [discriminate|]. congruence.
  - intros H. rewrite (start_scan_2d_shape _ _ _ Hd) in H.
    destruct (len_is d 7); [|left; congruence].
    destruct (scan_descriptor_ok d); [discriminate|right; congruence].
  - intros H. rewrite (get_info_3d_shape _ _ _ _ _ Hd Hpi) in H.
    destruct (len_is d 7); [discriminate|]. congruence.
  - intros H. rewrite (start_scan_3d_shape _ _ _ Hd) in H.
    destruct (len_is d 7); [|left; congruence].
    destruct (scan_descriptor_ok d); [discriminate|right; congruence].
Qed.

Lemma request_exceptions_witness :
  Plot2D.start_scan (mkSerial [[x00; x5a; x05; x00; x00; x40; x81]] [])
  = (Raise (Exception "Failed to start scan"), mkSerial [[]] [xa5; x20])
  /\ (Exception "Failed to start scan" = Exception "Failed to read descriptor"
      \/ Exception "Failed to start scan" = Exception "Failed to start scan").
Proof.
  split; [reflexivity|].
  apply (request_exceptions
           (mkSerial [[x00; x5a; x05; x00; x00; x40; x81]] [])
           (mkSerial [[]] [xa5; x20])).
  reflexivity.
Defined.

(** ** The sample stream *)

Lemma read_scan_turn_frame (f : Frame) (s s1 : Serial) :
  serial_read 5 s = (Return (frame_bytes f), s1) ->
  Plot2D.read_scan_turn s = (Return (frame_sample f), s1).
Proof.
  destruct f as [[[[b0 b1] b2] b3] b4]. intros H.
  now rewrite (read_scan_turn_2d _ _ _ _ _ _ _ H).
Qed.

(** A turn never raises; it returns with the port as the 5-byte read left
    it, and a sample only from a full frame. *)
Lemma read_scan_turn_total (s : Serial) :
  exists data s1 y,
    serial_read 5 s = (Return data, s1)
    /\ Plot2D.read_scan_turn s = (Return y, s1)
    /\ ((exists f, data = frame_bytes f /\ y = frame_sample f)
        \/ (len_is data 5 = false /\ y = None)).
Proof.
  destruct (serial_read_returns 5 s) as (data & s1 & Hread).
  destruct (len_is data 5) eqn:Hlen.
  - apply len_is_5_inv in Hlen as (b0 & b1 & b2 & b3 & b4 & ->).
    exists [b0; b1; b2; b3; b4], s1, (frame_sample (b0, b1, b2, b3, b4)).
    split; [exact Hread|]. split.
    + apply (read_scan_turn_frame (b0, b1, b2, b3, b4)), Hread.
    + left. now exists (b0, b1, b2, b3, b4).
  - exists data, s1, None. split; [exact Hread|]. split.
    + apply (read_scan_turn_2d_other _ _ _ Hread Hlen).
    + now right.
Qed.

Lemma read_scan_data_S (n : nat) (s s1 s2 : Serial)
    (y : option Plot2D.Sample) (l : list Plot2D.Sample) :
  Plot2D.read_scan_turn s = (Return y, s1) ->
  Plot2D.read_scan_data n s1 = (Return l, s2) ->
  Plot2D.read_scan_data (S n) s
  = (Return (match y with Some smp => smp :: l | None => l end), s2).
Proof.
  intros Ht Hr. cbn [Plot2D.read_scan_data]. unfold bind at 1. rewrite Ht.
  cbv iota beta. unfold bind. now rewrite Hr.
Qed.

Lemma read_scan_data_total (n : nat) (s : Serial) :
  exists l s', Plot2D.read_scan_data n s = (Return l, s').
Proof.
  revert s. induction n as [|n IH]; intros s; [now exists [], s|].
  destruct (read_scan_turn_total s) as (data & s1 & y & _ & Ht & _).
  destruct (IH s1) as (l & s2 & Hr).
  rewrite (read_scan_data_S _ _ _ _ _ _ Ht Hr). eauto.
Qed.

Lemma read_scan_data_app (a b : nat) (s s1 s2 : Serial)
    (l1 l2 : list Plot2D.Sample) :
  Plot2D.read_scan_data a s = (Return l1, s1) ->
  Plot2D.read_scan_data b s1 = (Return l2, s2) ->
  Plot2D.read_scan_data (a + b) s = (Return (l1 ++ l2), s2).
Proof.
  revert s l1. induction a as [|a IH]; intros s l1 Ha Hb.
  - cbn in Ha. injection Ha as <- <-. exact Hb.
  - destruct (read_scan_turn_total s) as (data & sa & y & _ & Ht & _).
    destruct (read_scan_data_total a sa) as (la & sb & Hla).
    rewrite (read_scan_data_S _ _ _ _ _ _ Ht Hla) in Ha.
    injection Ha as <- <-.
    cbn [Nat.add].
    rewrite (read_scan_data_S _ _ _ _ _ _ Ht (IH _ _ Hla Hb)).
    now destruct y.
Qed.

(** X7. The generator never raises and never writes to the port, on any
    state of the port: [n] turns of its loop yield at most [n] samples and
    consume at most [5 * n] of the bytes the device delivers. *)
Theorem read_scan_data_safe (n : nat) (s : Serial) :
  exists l s',
    Plot2D.read_scan_data n s = (Return l, s')
    /\ tx s' = tx s
    /\ (List.length l <= n)%nat
    /\ (pending s' <= pending s <= pending s' + 5 * n)%nat.
Proof.
  revert s. induction n as [|n IH]; intros s.
  - exists [], s. cbn. repeat split; lia.
  - destruct (read_scan_turn_total s) as (data & s1 & y & Hread & Ht & _).
    destruct (IH s1) as (l & s2 & Hr & Htx & Hlen & Hp).
    rewrite (read_scan_data_S _ _ _ _ _ _ Ht Hr).
    eexists _, _. split; [reflexivity|].
    pose proof (serial_read_keeps_tx _ _ _ _ Hread) as Htx1.
    destruct (serial_read_length _ _ _ _ Hread) as [Hd Hpd].
    split; [congruence|]. split; [destruct y; cbn; lia | lia].
Qed.

(** X8. Turns of the generator add up: [a + b] turns yield what [a] turns
    yield, followed by what [b] more turns yield from the port as the first
    [a] left it.  The generator keeps no state of its own, so a fresh
    generator continues where the previous one stopped. *)
Theorem read_scan_data_splits (a b : nat) (s : Serial) :
  exists l1 s1 l2 s2,
    Plot2D.read_scan_data a s = (Return l1, s1)
    /\ Plot2D.read_scan_data b s1 = (Return l2, s2)
    /\ Plot2D.read_scan_data (a + b) s = (Return (l1 ++ l2), s2).
Proof.
  destruct (read_scan_data_total a s) as (l1 & s1 & Ha).
  destruct (read_scan_data_total b s1) as (l2 & s2 & Hb).
  exists l1, s1, l2, s2. split; [exact Ha|]. split; [exact Hb|].
  exact (read_scan_data_app _ _ _ _ _ _ _ Ha Hb).
Qed.

Lemma next_sample_S (fuel : nat) (s s1 : Serial) (y : option Plot2D.Sample) :
  Plot2D.read_scan_turn s = (Return y, s1) ->
  Plot2D.next_sample (S fuel) s
  = match y with
    | Some smp => (Return (Some smp), s1)
    | None => Plot2D.next_sample fuel s1
    end.
Proof.
  intros Ht. cbn [Plot2D.next_sample]. unfold bind. rewrite Ht.
  now destruct y.
Qed.

(** X9. A pull [next(read_scan_data())] returns the first sample the
    generator yields and stops right after the frame of that sample: it is
    the whole yield of some [j <= fuel] turns.  When [fuel] turns yield
    nothing the pull is still waiting. *)
Theorem next_sample_is_first_yield (fuel : nat) (s : Serial) :
  exists l s',
    Plot2D.read_scan_data fuel s = (Return l, s')
    /\ match l with
       | [] => Plot2D.next_sample fuel s = (Return None, s')
       | smp :: _ =>
           exists j s1,
             (j <= fuel)%nat
             /\ Plot2D.next_sample fuel s = (Return (Some smp), s1)
             /\ Plot2D.read_scan_data j s = (Return [smp], s1)
       end.
Proof.
  revert s. induction fuel as [|fuel IH]; intros s.
  - exists [], s. split; reflexivity.
  - destruct (read_scan_turn_total s) as (data & s1 & y & _ & Ht & _).
    destruct (IH s1) as (l & s2 & Hr & Hnext).
    rewrite (read_scan_data_S _ _ _ _ _ _ Ht Hr).
    eexists _, _. split; [reflexivity|].
    rewrite (next_sample_S _ _ _ _ Ht).
    destruct y as [smp|].
    + exists 1%nat, s1. split; [lia|]. split; [reflexivity|].
      now rewrite (read_scan_data_S 0 _ _ s1 _ [] Ht).
    + destruct l as [|smp l]; [exact Hnext|].
      destruct Hnext as (j & sj & Hj & Hn & Hrj).
      exists (S j), sj. split; [lia|]. split; [exact Hn|].
      now rewrite (read_scan_data_S _ _ _ _ _ _ Ht Hrj).
Qed.

Lemma read_frame_from_burst (f : Frame) (tail : bytes) (later : list bytes)
    (t : bytes) :
  serial_read 5 (mkSerial ((frame_bytes f ++ tail) :: later) t)
  = (Return (frame_bytes f), mkSerial (tail :: later) t).
Proof. destruct f as [[[[b0 b1] b2] b3] b4]. reflexivity. Qed.

Lemma read_scan_data_frames (fs : list Frame) (tail : bytes)
    (later : list bytes) (t : bytes) :
  Plot2D.read_scan_data (List.length fs)
    (mkSerial ((flat_map frame_bytes fs ++ tail) :: later) t)
  = (Return (kept_samples fs), mkSerial (tail :: later) t).
Proof.
  induction fs as [|f fs IH]; [reflexivity|].
  cbn [flat_map List.length kept_samples]. rewrite <- app_assoc.
  rewrite (read_scan_data_S _ _ _ _ _ _
             (read_scan_turn_frame f _ _ (read_frame_from_burst f _ later t)) IH).
  now destruct (frame_sample f).
Qed.

(** X10. Frames that arrive back to back are decoded in order: from a burst
    that starts with the bytes of the frames [fs], one turn per frame yields
    exactly the samples of the frames the filter keeps, in the order of the
    frames, and leaves the port right after the last frame. *)
Theorem aligned_frames_decoded_in_order
    (fs : list Frame) (tail : bytes) (later : list bytes) (t : bytes) :
  Plot2D.read_scan_data (List.length fs)
    (mkSerial ((flat_map frame_bytes fs ++ tail) :: later) t)
  = (Return (kept_samples fs), mkSerial (tail :: later) t)
  /\ (List.length (kept_samples fs) <= List.length fs)%nat.
Proof.
  split; [apply read_scan_data_frames|].
  induction fs as [|f fs IH]; [cbn; lia|].
  cbn [kept_samples List.length]. destruct (frame_sample f); cbn; lia.
Qed.

(** X11. The decoder does not join a frame across a timeout: when a burst
    ends with fewer than 5 bytes after its last full frame, these bytes are
    read, dropped, and decoding goes on at the first byte of the next
    burst. *)
Theorem partial_frame_dropped
    (fs : list Frame) (part : bytes) (later : list bytes) (t : bytes)
    (n : nat) :
  (List.length part < 5)%nat ->
  exists l s',
    Plot2D.read_scan_data n (mkSerial later t) = (Return l, s')
    /\ Plot2D.read_scan_data (List.length fs + (1 + n))
         (mkSerial ((flat_map frame_bytes fs ++ part) :: later) t)
       = (Return (kept_samples fs ++ l), s').
Proof.
  intros Hpart.
  destruct (read_scan_data_total n (mkSerial later t)) as (l & s' & Hn).
  exists l, s'. split; [exact Hn|].
  apply (read_scan_data_app _ _ _ _ _ _ _ (read_scan_data_frames fs part later t)).
  assert (Hread : serial_read 5 (mkSerial (part :: later) t)
                  = (Return part, mkSerial later t))
    by (apply serial_read_short; exact Hpart).
  assert (Hlen : len_is part 5 = false) by (apply Nat.eqb_neq; lia).
  apply (read_scan_data_S _ _ _ _ _ _
           (read_scan_turn_2d_other _ _ _ Hread Hlen) Hn).
Qed.

Lemma partial_frame_dropped_witness :
  (List.length [x05; x40] < 5)%nat
  /\ exists l s',
       Plot2D.read_scan_data 1
         (mkSerial [[x05; x40; x20; xe8; x03]] []) = (Return l, s')
       /\ Plot2D.read_scan_data (1 + (1 + 1))
            (mkSerial [[x09; x00; x01; x04; x00; x05; x40];
                       [x05; x40; x20; xe8; x03]] [])
          = (Return (kept_samples [(x09, x00, x01, x04, x00)] ++ l), s').
Proof.
  split; [cbn; lia|].
  apply (partial_frame_dropped [(x09, x00, x01, x04, x00)] [x05; x40]
           [[x05; x40; x20; xe8; x03]] [] 1).
  cbn; lia.
Defined.

(** ** Stopping the scan *)





(** ** [3dplot.py]: decimation of the plotted points *)

Lemma every_nth_count {A} (step skip : nat) (l : list A) :
  (1 <= step)%nat -> (skip < step)%nat ->
  let c := List.length (Dash3D.every_nth step skip l) in
  (List.length l <= skip -> c = 0)%nat
  /\ (skip < List.length l ->
      1 <= c /\ skip + step * (c - 1) < List.length l <= skip + step * c)%nat.
Proof.
  intros Hstep. revert skip. induction l as [|x l IH]; intros skip Hskip.
  - cbn. split; intros; lia.
  - destruct skip as [|skip]; cbn [Dash3D.every_nth List.length].
    + destruct (IH (step - 1)%nat ltac:(lia)) as [IH0 IH1].
      split; [lia|]. intros _.
      destruct (Nat.le_gt_cases (List.length l) (step - 1)) as [Hle|Hgt].
      * rewrite (IH0 Hle). lia.
      * destruct (IH1 Hgt) as (Hc & Hlo & Hhi).
        set (c := List.length (Dash3D.every_nth step (step - 1) l)) in *.
        split; [lia|].
        replace (S c - 1)%nat with (S (c - 1)) by lia.
        rewrite !Nat.mul_succ_r. lia.
    + destruct (IH skip ltac:(lia)) as [IH0 IH1].
      split; [intros; apply IH0; lia|].
      intros H. destruct (IH1 ltac:(lia)) as (Hc & Hlo & Hhi). lia.
Qed.

Lemma every_nth_1 {A} (l : list A) : Dash3D.every_nth 1 0 l = l.
Proof. induction l as [|x l IH]; [reflexivity|]. cbn. now rewrite IH. Qed.

Lemma every_nth_head {A} (step : nat) (l : list A) :
  hd_error (Dash3D.every_nth step 0 l) = hd_error l.
Proof. now destruct l. Qed.

(** X14. The decimation of [update_graph] with a positive [max_points]
    never fails and keeps the first point.  With fewer than
    [2 * max_points] points nothing is removed; with [max_points] points or
    more, between [max_points] and [2 * max_points - 1] points are kept: the
    slider is a lower bound of the number of plotted points, not a cap. *)
Theorem decimate_bounds {A} (max_points : Z) (l : list A) :
  0 < max_points ->
  exists r,
    Dash3D.decimate max_points l = Some r
    /\ hd_error r = hd_error l
    /\ (List.length r <= List.length l)%nat
    /\ (Z.of_nat (List.length l) < 2 * max_points -> r = l)
    /\ (max_points <= Z.of_nat (List.length l) ->
        max_points <= Z.of_nat (List.length r) < 2 * max_points).
Proof.
  intros Hmp. unfold Dash3D.decimate, Dash3D.decimation_step.
  destruct (max_points =? 0) eqn:H0; [apply Z.eqb_eq in H0; lia|].
  eexists. split; [reflexivity|].
  set (n := List.length l).
  set (q := Z.of_nat n / max_points).
  assert (Hq : max_points * q <= Z.of_nat n < max_points * q + max_points).
  { pose proof (Z.mul_div_le (Z.of_nat n) max_points Hmp).
    pose proof (Z.mul_succ_div_gt (Z.of_nat n) max_points Hmp).
    fold q in H, H1. lia. }
  assert (Hq0 : 0 <= q) by (apply Z.div_pos; lia).
  set (step := Z.to_nat (Z.max 1 q)).
  assert (Hstep : (1 <= step)%nat) by (unfold step; lia).
  unfold Dash3D.slice_step.
  destruct (every_nth_count step 0 l Hstep ltac:(lia)) as [Hc0 Hc1].
  fold n in Hc0, Hc1.
  set (c := List.length (Dash3D.every_nth step 0 l)) in *.
  split; [apply every_nth_head|].
  split.
  { destruct (Nat.eq_dec n 0) as [Hn|Hn]; [rewrite Hc0; lia|].
    destruct (Hc1 ltac:(lia)) as (H1 & Hlo & Hhi). nia. }
  split.
  { intros Hlt. assert (q <= 1) by nia.
    replace step with 1%nat by (unfold step; lia). apply every_nth_1. }
  intros Hge. assert (1 <= q) by nia.
  assert (Hs : Z.of_nat step = q) by (unfold step; lia).
  destruct (Hc1 ltac:(lia)) as (H1 & Hlo & Hhi).
  apply Nat2Z.inj_lt in Hlo. apply Nat2Z.inj_le in Hhi.
  rewrite Nat2Z.inj_add, Nat2Z.inj_mul in Hlo, Hhi.
  rewrite Nat2Z.inj_sub in Hlo by lia. rewrite Hs in Hlo, Hhi.
  change (Z.of_nat 0) with 0 in *. change (Z.of_nat 1) with 1 in *.
  split; nia.
Qed.

Lemma decimate_bounds_witness :
  0 < 3
  /\ exists r,
       Dash3D.decimate 3 [10; 20; 30; 40; 50; 60; 70; 80; 90; 100; 110] = Some r
       /\ hd_error r = Some 10
       /\ (List.length r <= 11)%nat
       /\ (11 < 2 * 3 -> r = [10; 20; 30; 40; 50; 60; 70; 80; 90; 100; 110])
       /\ (3 <= 11 -> 3 <= Z.of_nat (List.length r) < 2 * 3).
Proof.
  split; [lia|].
  apply (decimate_bounds 3 [10; 20; 30; 40; 50; 60; 70; 80; 90; 100; 110]).
  lia.
Defined.

(** ** [3dplot.py]: the scan thread and its buffers *)

Lemma lastn_length {A} (m : nat) (l : list A) :
  List.length (lastn m l) = Nat.min m (List.length l).
Proof. unfold lastn. rewrite length_skipn. lia. Qed.

Lemma deque_append_lastn {A} (m : nat) (x : A) (d : list A) :
  (List.length d <= m)%nat ->
  Dash3D.deque_append m x d = lastn m (d ++ [x]).
Proof.
  intros Hd. unfold Dash3D.deque_append, lastn. rewrite length_app. cbn [List.length].
  destruct (List.length d <? m)%nat eqn:Hlt.
  - apply Nat.ltb_lt in Hlt. now replace (List.length d + 1 - m)%nat with 0%nat by lia.
  - apply Nat.ltb_ge in Hlt. now replace (List.length d + 1 - m)%nat with 1%nat by lia.
Qed.

Lemma lastn_app_lastn {A} (m : nat) (a b : list A) :
  lastn m (lastn m a ++ b) = lastn m (a ++ b).
Proof.
  destruct (Nat.le_gt_cases (List.length a) m) as [Hle|Hgt].
  - unfold lastn at 2. now replace (List.length a - m)%nat with 0%nat by lia.
  - unfold lastn at 1 3. rewrite !length_app, lastn_length.
    replace (Nat.min m (List.length a)) with m by lia.
    unfold lastn. rewrite !skipn_app, length_skipn, skipn_skipn.
    f_equal; f_equal; lia.
Qed.

Lemma read_scan_turn_3d_as_2d (s : Serial) :
  Plot3D.read_scan_turn s
  = map_result (option_map forget_start_flag) (Plot2D.read_scan_turn s).
Proof.
  destruct (serial_read_returns 5 s) as (data & s1 & Hread).
  destruct (len_is data 5) eqn:Hlen.
  - apply len_is_5_inv in Hlen as (b0 & b1 & b2 & b3 & b4 & ->).
    rewrite (read_scan_turn_2d _ _ _ _ _ _ _ Hread).
    rewrite (read_scan_turn_3d _ _ _ _ _ _ _ Hread).
    now destruct (_ && _).
  - rewrite (read_scan_turn_2d_other _ _ _ Hread Hlen).
    now rewrite (read_scan_turn_3d_other _ _ _ Hread Hlen).
Qed.

Lemma read_scan_turn_3d_total (s : Serial) :
  exists y s1, Plot3D.read_scan_turn s = (Return y, s1).
Proof.
  destruct (read_scan_turn_total s) as (data & s1 & y & _ & Ht & _).
  rewrite read_scan_turn_3d_as_2d, Ht. cbn. eauto.
Qed.

Lemma read_scan_data_3d_S (n : nat) (s s1 s2 : Serial)
    (y : option Plot3D.Sample) (l : list Plot3D.Sample) :
  Plot3D.read_scan_turn s = (Return y, s1) ->
  Plot3D.read_scan_data n s1 = (Return l, s2) ->
  Plot3D.read_scan_data (S n) s
  = (Return (match y with Some smp => smp :: l | None => l end), s2).
Proof.
  intros Ht Hr. cbn [Plot3D.read_scan_data]. unfold bind at 1. rewrite Ht.
  cbv iota beta. unfold bind. now rewrite Hr.
Qed.

(** A pull of the scan thread that returns a sample has run some turns of
    the generator, which yielded that sample and nothing else. *)
Lemma next_sample_3d_inv (fuel : nat) (s s1 : Serial) (r : outcome (option Plot3D.Sample)) :
  Plot3D.next_sample fuel s = (r, s1) ->
  r = Return None
  \/ exists smp j, r = Return (Some smp)
                   /\ Plot3D.read_scan_data j s = (Return [smp], s1).
Proof.
  revert s. induction fuel as [|fuel IH]; intros s H.
  - cbn in H. injection H as <- <-. now left.
  - destruct (read_scan_turn_3d_total s) as (y & sa & Ht).
    cbn [Plot3D.next_sample] in H. unfold bind in H. rewrite Ht in H.
    destruct y as [smp|].
    + cbn in H. injection H as <- <-. right. exists smp, 1%nat.
      split; [reflexivity|]. now rewrite (read_scan_data_3d_S 0 _ _ sa _ [] Ht).
    + destruct (IH _ H) as [->|(smp & j & -> & Hj)]; [now left|].
      right. exists smp, (S j). split; [reflexivity|].
      now rewrite (read_scan_data_3d_S _ _ _ _ _ _ Ht Hj).
Qed.

Lemma read_scan_data_3d_app (a b : nat) (s s1 s2 : Serial)
    (l1 l2 : list Plot3D.Sample) :
  Plot3D.read_scan_data a s = (Return l1, s1) ->
  Plot3D.read_scan_data b s1 = (Return l2, s2) ->
  Plot3D.read_scan_data (a + b) s = (Return (l1 ++ l2), s2).
Proof.
  revert s l1. induction a as [|a IH]; intros s l1 Ha Hb.
  - cbn in Ha. injection Ha as <- <-. exact Hb.
  - destruct (read_scan_turn_3d_total s) as (y & sa & Ht).
    cbn [Plot3D.read_scan_data] in Ha. unfold bind at 1 in Ha.
    rewrite Ht in Ha. cbv iota beta in Ha. unfold bind in Ha.
    destruct (Plot3D.read_scan_data a sa) as [[la|e] sb] eqn:Hla;
      [|discriminate].
    cbn in Ha. injection Ha as <- <-. cbn [Nat.add].
    rewrite (read_scan_data_3d_S _ _ _ _ _ _ Ht (IH _ _ Hla Hb)).
    now destruct y.
Qed.

Lemma scan_worker_buffers (k fuel : nat) (d0 d : Dash3D.LidarData) (s s' : Serial) :
  (List.length (Dash3D.angles d0) <= Dash3D.MAXLEN)%nat ->
  (List.length (Dash3D.distances d0) <= Dash3D.MAXLEN)%nat ->
  (List.length (Dash3D.qualities d0) <= Dash3D.MAXLEN)%nat ->
  Dash3D.scan_worker k fuel d0 s = (Return (Some d), s') ->
  exists l n,
    List.length l = k
    /\ Plot3D.read_scan_data n s = (Return l, s')
    /\ Dash3D.angles d
       = lastn Dash3D.MAXLEN (Dash3D.angles d0 ++ map Plot3D.angle l)
    /\ Dash3D.distances d
       = lastn Dash3D.MAXLEN (Dash3D.distances d0 ++ map Plot3D.distance l)
    /\ Dash3D.qualities d
       = lastn Dash3D.MAXLEN (Dash3D.qualities d0 ++ map Plot3D.quality l).
Proof.
  revert d0 s. induction k as [|k IH]; intros d0 s Ha Hd Hq H.
  - cbn in H. injection H as <- <-. exists [], 0%nat. cbn [map].
    rewrite !app_nil_r. unfold lastn.
    replace (List.length (Dash3D.angles d0) - Dash3D.MAXLEN)%nat with 0%nat by lia.
    replace (List.length (Dash3D.distances d0) - Dash3D.MAXLEN)%nat with 0%nat by lia.
    replace (List.length (Dash3D.qualities d0) - Dash3D.MAXLEN)%nat with 0%nat by lia.
    repeat split.
  - cbn [Dash3D.scan_worker] in H.
    destruct (Plot3D.next_sample fuel s) as [r s1] eqn:Hnext.
    destruct (next_sample_3d_inv _ _ _ _ Hnext) as [->|(smp & j & -> & Hj)];
      [discriminate|].
    apply IH in H.
    + destruct H as (l & n & Hl & Hn & HA & HD & HQ).
      exists (smp :: l), (j + n)%nat. split; [cbn; lia|].
      split; [exact (read_scan_data_3d_app _ _ _ _ _ _ _ Hj Hn)|].
      cbn [Dash3D.append_sample Dash3D.angles Dash3D.distances Dash3D.qualities] in HA, HD, HQ.
      rewrite deque_append_lastn in HA by assumption.
      rewrite deque_append_lastn in HD by assumption.
      rewrite deque_append_lastn in HQ by assumption.
      rewrite lastn_app_lastn, <- app_assoc in HA.
      rewrite lastn_app_lastn, <- app_assoc in HD.
      rewrite lastn_app_lastn, <- app_assoc in HQ.
      now repeat split.
    + cbn [Dash3D.append_sample Dash3D.angles].
      rewrite deque_append_lastn, lastn_length by assumption. lia.
    + cbn [Dash3D.append_sample Dash3D.distances].
      rewrite deque_append_lastn, lastn_length by assumption. lia.
    + cbn [Dash3D.append_sample Dash3D.qualities].
      rewrite deque_append_lastn, lastn_length by assumption. lia.
Qed.

(** X15. When the scan thread has made [k] turns of its loop, starting
    from the empty buffers, it has pulled the first [k] samples the
    generator yields, and each of the three buffers holds the last 1800 of
    them, in order: the angles, distances and qualities of the same
    samples, at the same positions. *)
Theorem scan_worker_keeps_last_1800 (k fuel : nat) (d : Dash3D.LidarData) (s s' : Serial) :
  Dash3D.scan_worker k fuel Dash3D.lidar_data_init s = (Return (Some d), s') ->
  exists l n,
    List.length l = k
    /\ Plot3D.read_scan_data n s = (Return l, s')
    /\ Dash3D.angles d = map Plot3D.angle (lastn 1800 l)
    /\ Dash3D.distances d = map Plot3D.distance (lastn 1800 l)
    /\ Dash3D.qualities d = map Plot3D.quality (lastn 1800 l)
    /\ (List.length (Dash3D.angles d) <= 1800)%nat.
Proof.
  intros H.
  apply scan_worker_buffers in H; try (cbn; lia).
  destruct H as (l & n & Hl & Hn & HA & HD & HQ). exists l, n.
  cbn [Dash3D.lidar_data_init Dash3D.angles Dash3D.distances Dash3D.qualities app]
    in HA, HD, HQ.
  change Dash3D.MAXLEN with 1800%nat in *.
  assert (Hmap : forall (B : Type) (f : Plot3D.Sample -> B),
            lastn 1800 (map f l) = map f (lastn 1800 l)).
  { intros B f. unfold lastn. now rewrite length_map, skipn_map. }
  rewrite Hmap in HA, HD, HQ.
  repeat split; try assumption.
  rewrite HA, length_map, lastn_length. lia.
Qed.

Lemma scan_worker_keeps_last_1800_witness :
  exists l n,
    List.length l = 2%nat
    /\ Plot3D.read_scan_data n
         (mkSerial [[x05; x40; x20; xe8; x03; x01; x00; x20; xe8; x03;
                     x09; x00; x01; x04; x00]] [])
       = (Return l, mkSerial [[]] [])
    /\ [frame_angle x40 x20; frame_angle x00 x01] = map Plot3D.angle (lastn 1800 l)
    /\ [frame_distance xe8 x03; frame_distance x04 x00]
       = map Plot3D.distance (lastn 1800 l)
    /\ [1; 2] = map Plot3D.quality (lastn 1800 l)
    /\ (2 <= 1800)%nat.
Proof.
  apply (scan_worker_keeps_last_1800 2 3
           (Dash3D.mkLidarData
              [frame_angle x40 x20; frame_angle x00 x01]
              [frame_distance xe8 x03; frame_distance x04 x00] [1; 2])).
  reflexivity.
Defined.

(** ** [2dplot.py]: the angle bins of [LidarVisualizer.update] *)


Lemma angle_key_checked :
  all_from (Z.to_nat 32768) 0 angle_key_exact = true.
Proof. vm_cast_no_check (eq_refl true). Qed.

(** X16. The bin of a decoded angle: for every frame
    [round(angle / 0.5) * 0.5] is computed without error and is the float
    that is exactly [k / 2] degrees, where [k] is the integer nearest to
    twice the angle, a tie going to the even [k].  So the key is a multiple
    of 0.5 at most 0.25 degree away from the angle. *)
Theorem angle_key_nearest_half_degree (b1 b2 : byte) :
  exists (key : PyFloat.float) (k : Z),
    LidarVisualizer.angle_key (frame_angle b1 b2) = Some key
    /\ PyFloat.is_exactly key (inject_Z k / 2)
    /\ (Spec.angle_degrees (int_of_byte b1) (int_of_byte b2) - (1 # 4)
        <= inject_Z k / 2)%Q
    /\ (inject_Z k / 2
        <= Spec.angle_degrees (int_of_byte b1) (int_of_byte b2) + (1 # 4))%Q
    /\ (Z.abs (32 * k - Spec.angle_raw (int_of_byte b1) (int_of_byte b2)) = 16
        -> Z.even k = true)
    /\ 0 <= k <= 1024.
Proof.
  pose proof (angle_raw_range b1 b2) as Hr.
  pose proof (all_from_spec _ _ _ angle_key_checked
                (Spec.angle_raw (int_of_byte b1) (int_of_byte b2))) as Hc.
  rewrite Z2Nat.id in Hc by lia. specialize (Hc ltac:(lia)).
  unfold angle_key_exact in Hc. unfold frame_angle, Spec.angle_degrees.
  revert Hr Hc.
  generalize (Spec.angle_raw (int_of_byte b1) (int_of_byte b2)) as n.
  intros n Hr Hc.
  destruct (LidarVisualizer.angle_key _) as [key|]; [|discriminate].
  set (k := LidarVisualizer.round_half_even n 5) in *. clearbody k.
  apply andb_prop in Hc as [Hc _]. apply andb_prop in Hc as [Hc Htie].
  apply andb_prop in Hc as [Hex Habs].
  apply is_exactlyb_sound in Hex. apply Z.leb_le in Habs.
  exists key, k. split; [reflexivity|].
  split; [apply (is_exactly_Qeq _ _ _ Hex), Qmake_Qdiv|].
  split; [|split; [|split]].
  - unfold Qle, Qminus, Qplus, Qopp, Qdiv, Qmult, Qinv, inject_Z; cbn. lia.
  - unfold Qle, Qminus, Qplus, Qopp, Qdiv, Qmult, Qinv, inject_Z; cbn. lia.
  - intros H16. apply Z.eqb_eq in H16. rewrite H16 in Htie. exact Htie.
  - lia.
Qed.

(** [==] on floats: equal floats are the same float, or two zeros. *)
Lemma key_eq_true (x y : PyFloat.float) :
  LidarVisualizer.key_eq x y = true ->
  x = y \/ (exists s s', x = S754_zero s /\ y = S754_zero s').
Proof.
  unfold LidarVisualizer.key_eq, SFeqb.
  destruct x as [sx|sx| |sx mx ex], y as [sy|sy| |sy my ey]; cbn;
    try discriminate; try (destruct sx; discriminate);
    try (destruct sy; discriminate).
  - intros _. right. eauto.
  - destruct sx, sy; try discriminate; intros _; now left.
  - destruct sx, sy; try discriminate.
    + destruct (ex ?= ey) eqn:He; try discriminate.
      apply Z.compare_eq in He. change (Pos.compare_cont Eq mx my) with (mx ?= my)%positive.
      destruct (mx ?= my)%positive eqn:Hm; try discriminate.
      apply Pos.compare_eq in Hm. intros _. left. congruence.
    + destruct (ex ?= ey) eqn:He; try discriminate.
      apply Z.compare_eq in He. change (Pos.compare_cont Eq mx my) with (mx ?= my)%positive.
      destruct (mx ?= my)%positive eqn:Hm; try discriminate.
      apply Pos.compare_eq in Hm. intros _. left. congruence.
Qed.

Lemma key_eq_sym (x y : PyFloat.float) :
  LidarVisualizer.key_eq x y = true -> LidarVisualizer.key_eq y x = true.
Proof.
  intros H. destruct (key_eq_true x y H) as [->|(s & s' & -> & ->)];
    [exact H | reflexivity].
Qed.

Lemma key_eq_trans (x y z : PyFloat.float) :
  LidarVisualizer.key_eq x y = true -> LidarVisualizer.key_eq y z = true ->
  LidarVisualizer.key_eq x z = true.
Proof.
  intros Hxy Hyz.
  destruct (key_eq_true x y Hxy) as [->|(s & s' & -> & ->)]; [exact Hyz|].
  destruct (key_eq_true _ z Hyz) as [<-|(s1 & s2 & _ & ->)]; reflexivity.
Qed.

Lemma dict_get_set_same (key key' v : PyFloat.float) (d : LidarVisualizer.dict) :
  LidarVisualizer.key_eq key key' = true ->
  LidarVisualizer.dict_get key' (LidarVisualizer.dict_set key v d) = Some v.
Proof.
  intros Hk. induction d as [|[k0 v0] d IH]; cbn.
  - now rewrite Hk.
  - destruct (LidarVisualizer.key_eq k0 key) eqn:H0; cbn.
    + now rewrite (key_eq_trans _ _ _ H0 Hk).
    + destruct (LidarVisualizer.key_eq k0 key') eqn:H1; [|exact IH].
      rewrite (key_eq_trans _ _ _ H1 (key_eq_sym _ _ Hk)) in H0. discriminate.
Qed.

Lemma dict_get_set_other (key key' v : PyFloat.float) (d : LidarVisualizer.dict) :
  LidarVisualizer.key_eq key key' = false ->
  LidarVisualizer.dict_get key' (LidarVisualizer.dict_set key v d)
  = LidarVisualizer.dict_get key' d.
Proof.
  intros Hk. induction d as [|[k0 v0] d IH]; cbn.
  - now rewrite Hk.
  - destruct (LidarVisualizer.key_eq k0 key) eqn:H0; cbn.
    + destruct (LidarVisualizer.key_eq k0 key') eqn:H1; [|reflexivity].
      rewrite (key_eq_trans _ _ _ (key_eq_sym _ _ H0) H1) in Hk. discriminate.
    + now rewrite IH.
Qed.

Lemma dict_set_length (key v : PyFloat.float) (d : LidarVisualizer.dict) :
  (List.length d <= List.length (LidarVisualizer.dict_set key v d)
   <= S (List.length d))%nat.
Proof.
  induction d as [|[k0 v0] d IH]; cbn; [lia|].
  destruct (LidarVisualizer.key_eq k0 key); cbn; lia.
Qed.

Lemma collect_from_app (st : LidarVisualizer.dict * Z) (a b : list Plot2D.Sample) :
  LidarVisualizer.collect_from st (a ++ b)
  = match LidarVisualizer.collect_from st a with
    | Some st' => LidarVisualizer.collect_from st' b
    | None => None
    end.
Proof.
  revert st. induction a as [|x a IH]; intros st; [reflexivity|].
  cbn [app LidarVisualizer.collect_from].
  destruct (LidarVisualizer.collect_one st x); [apply IH | reflexivity].
Qed.

Lemma collect_from_counts (st st' : LidarVisualizer.dict * Z) (l : list Plot2D.Sample) :
  LidarVisualizer.collect_from st l = Some st' ->
  snd st' = snd st + Z.of_nat (List.length l)
  /\ (List.length (fst st') <= List.length (fst st) + List.length l)%nat.
Proof.
  revert st. induction l as [|x l IH]; intros [d pc] H.
  - cbn in H. injection H as <-. cbn. lia.
  - cbn [LidarVisualizer.collect_from] in H.
    unfold LidarVisualizer.collect_one in H.
    destruct (LidarVisualizer.angle_key (Plot2D.angle x)) as [key|]; [|discriminate].
    apply IH in H. cbn [fst snd List.length] in *.
    pose proof (dict_set_length key (Plot2D.distance x) d). lia.
Qed.

Lemma collect_from_keeps (st st' : LidarVisualizer.dict * Z)
    (l : list Plot2D.Sample) (key : PyFloat.float) :
  LidarVisualizer.collect_from st l = Some st' ->
  (forall smp key', In smp l ->
     LidarVisualizer.angle_key (Plot2D.angle smp) = Some key' ->
     LidarVisualizer.key_eq key' key = false) ->
  LidarVisualizer.dict_get key (fst st') = LidarVisualizer.dict_get key (fst st).
Proof.
  revert st. induction l as [|x l IH]; intros [d pc] H Hother.
  - cbn in H. now injection H as <-.
  - cbn [LidarVisualizer.collect_from] in H.
    unfold LidarVisualizer.collect_one in H.
    destruct (LidarVisualizer.angle_key (Plot2D.angle x)) as [kx|] eqn:Hkx;
      [|discriminate].
    rewrite (IH _ H) by (intros smp key' Hin; apply Hother; now right).
    cbn [fst]. apply dict_get_set_other. apply (Hother x); [now left|exact Hkx].
Qed.

(** X17. In the collection loop of [update] the last sample of a bin wins:
    after the samples [before ++ smp :: after] have been collected, when no
    sample of [after] falls in the bin of [smp], the dictionary holds the
    distance of [smp] under its key.  [point_count] is the number of samples
    pulled, and the dictionary has at most that many entries. *)
Theorem collect_last_wins
    (before after : list Plot2D.Sample) (smp : Plot2D.Sample)
    (key : PyFloat.float) (d : LidarVisualizer.dict) (point_count : Z) :
  LidarVisualizer.collect (before ++ smp :: after) = Some (d, point_count) ->
  LidarVisualizer.angle_key (Plot2D.angle smp) = Some key ->
  LidarVisualizer.key_eq key key = true ->
  (forall smp' key', In smp' after ->
     LidarVisualizer.angle_key (Plot2D.angle smp') = Some key' ->
     LidarVisualizer.key_eq key' key = false) ->
  LidarVisualizer.dict_get key d = Some (Plot2D.distance smp)
  /\ point_count = Z.of_nat (List.length (before ++ smp :: after))
  /\ (Z.of_nat (List.length d) <= point_count).
Proof.
  intros Hc Hkey Hrefl Hafter. unfold LidarVisualizer.collect in Hc.
  pose proof (collect_from_counts _ _ _ Hc) as [Hpc Hlen].
  cbn [fst snd List.length] in Hpc, Hlen.
  split; [|split; lia].
  rewrite collect_from_app in Hc.
  destruct (LidarVisualizer.collect_from ([], 0) before) as [[d1 pc1]|];
    [|discriminate].
  cbn [LidarVisualizer.collect_from] in Hc.
  unfold LidarVisualizer.collect_one in Hc. rewrite Hkey in Hc.
  pose proof (collect_from_keeps _ _ _ key Hc Hafter) as Hk.
  cbn [fst] in Hk. rewrite Hk. now apply dict_get_set_same.
Qed.

Lemma collect_last_wins_witness :
  let s1 := Plot2D.mkSample (frame_angle x40 x20) (frame_distance xe8 x03) 1 true in
  let s2 := Plot2D.mkSample (frame_angle x44 x20) (frame_distance x10 x00) 2 false in
  let s3 := Plot2D.mkSample (frame_angle x00 x01) (frame_distance x04 x00) 2 false in
  exists d,
    LidarVisualizer.collect ([s1] ++ s2 :: [s3]) = Some (d, 3)
    /\ LidarVisualizer.angle_key (Plot2D.angle s1)
       = LidarVisualizer.angle_key (Plot2D.angle s2)
    /\ LidarVisualizer.dict_get (frame_angle x40 x20) d
       = Some (frame_distance x10 x00)
    /\ List.length d = 2%nat.
Proof.
  cbv zeta. eexists. split; [vm_compute; reflexivity|].
  split; [vm_compute; reflexivity|].
  split; [|vm_compute; reflexivity].
  refine (proj1 (collect_last_wins
           [Plot2D.mkSample (frame_angle x40 x20) (frame_distance xe8 x03) 1 true]
           [Plot2D.mkSample (frame_angle x00 x01) (frame_distance x04 x00) 2 false]
           (Plot2D.mkSample (frame_angle x44 x20) (frame_distance x10 x00) 2 false)
           (frame_angle x40 x20) _ 3 _ _ _ _)).
  - vm_compute. reflexivity.
  - vm_compute. reflexivity.
  - vm_compute. reflexivity.
  - intros smp' key' [<-|[]] H. vm_compute in H. injection H as <-.
    vm_compute. reflexivity.
Defined.

(** ** Requests *)

Lemma byte_of_value (v : Z) :
  0 <= v < 256 -> exists b, Byte.of_N (Z.to_N v) = Some b /\ int_of_byte b = v.
Proof.
  intros Hv. destruct (Byte.of_N (Z.to_N v)) as [b|] eqn:Hb.
  - exists b. split; [reflexivity|]. apply Byte.to_of_N in Hb.
    unfold int_of_byte. rewrite Hb. lia.
  - apply Byte.of_N_None_iff in Hb. lia.
Qed.

(** X18. [_send_command] for any command code: a code in [0, 255] is sent
    as the two bytes [0xA5, code] and nothing is read; any other code
    raises [struct.error] before anything is written.  Both copies of the
    driver. *)
Theorem send_command_any (cmd : Z) (s : Serial) :
  (0 <= cmd < 256 ->
   exists b, int_of_byte b = cmd
     /\ Plot2D._send_command cmd s = (Return tt, mkSerial (rx s) (tx s ++ [xa5; b]))
     /\ Plot3D._send_command cmd s = (Return tt, mkSerial (rx s) (tx s ++ [xa5; b])))
  /\ (~ 0 <= cmd < 256 ->
      Plot2D._send_command cmd s = (Raise StructError, s)
      /\ Plot3D._send_command cmd s = (Raise StructError, s)).
Proof.
  split; intros Hc.
  - destruct (byte_of_value cmd Hc) as (b & Hb & Hv). exists b.
    split; [exact Hv|].
    assert (Hr : (0 <=? cmd) && (cmd <? 256) = true)
      by (apply andb_true_intro; split; [apply Z.leb_le | apply Z.ltb_lt]; lia).
    unfold Plot2D._send_command, Plot3D._send_command, struct_pack_BB, bind.
    change (pack_B Plot2D.SYNC_BYTE s) with (@Return byte xa5, s).
    change (pack_B Plot3D.SYNC_BYTE s) with (@Return byte xa5, s).
    cbv iota beta. unfold pack_B. rewrite Hr, Hb. split; reflexivity.
  - assert (Hr : (0 <=? cmd) && (cmd <? 256) = false).
    { apply andb_false_iff. destruct (Z.le_gt_cases 0 cmd);
        [right; apply Z.ltb_ge; lia | left; apply Z.leb_gt; lia]. }
    unfold Plot2D._send_command, Plot3D._send_command, struct_pack_BB, bind.
    change (pack_B Plot2D.SYNC_BYTE s) with (@Return byte xa5, s).
    change (pack_B Plot3D.SYNC_BYTE s) with (@Return byte xa5, s).
    cbv iota beta. unfold pack_B. rewrite Hr. split; reflexivity.
Qed.

Lemma send_command_any_witness :
  0 <= Plot2D.EXPRESS_SCAN < 256
  /\ exists b, int_of_byte b = Plot2D.EXPRESS_SCAN
       /\ Plot2D._send_command Plot2D.EXPRESS_SCAN (mkSerial [] [])
          = (Return tt, mkSerial [] [xa5; b])
       /\ Plot3D._send_command Plot2D.EXPRESS_SCAN (mkSerial [] [])
          = (Return tt, mkSerial [] [xa5; b]).
Proof.
  split; [unfold Plot2D.EXPRESS_SCAN; lia|].
  apply (send_command_any Plot2D.EXPRESS_SCAN (mkSerial [] [])).
  unfold Plot2D.EXPRESS_SCAN; lia.
Defined.
